(** * RsaPrivateKeySecret: a shallow embedding of
      [lib/code-signing/private-key.ts] and the properties of its
      access-control wiring.

    The construct provisions an RSA private key into AWS Secrets Manager
    through a custom resource backed by a singleton Lambda function, and
    composes the IAM / KMS policy statements that let the handler manage the
    secret and that let later grantees read it.

    The TypeScript source mutates objects it is handed (the props object,
    the key's resource policy, the grantee's policy); those objects live in
    a [World] store that is threaded through a small state-and-exception
    monad.  The namespaces [cdk], [iam], [kms], [lambda] and [cfn] follow the
    imports of the source file. *)

From Stdlib Require Import ZArith Ascii.
From stdpp Require Import base option list strings gmap.

Local Open Scope Z_scope.

(** ** Strings *)

(** [s.replace(/[^0-9A-Za-z]/g, '')]: every character that is not an ASCII
    digit or letter is dropped. *)
Definition is_alnum (c : ascii) : bool :=
  let n := nat_of_ascii c in
  ((48 <=? n) && (n <=? 57) || (65 <=? n) && (n <=? 90) || (97 <=? n) && (n <=? 122))%nat.

Fixpoint strip_non_alnum (s : string) : string :=
  match s with
  | EmptyString => EmptyString
  | String c s' => if is_alnum c then String c (strip_non_alnum s') else strip_non_alnum s'
  end.

(** Modelled from the spec: the policy evaluator is a service outside the
    repository; the spec calls an ARN pattern "a wildcard-style matcher".
    ["*"] stands for any run of characters, ["?"] for exactly one character,
    every other character for itself. *)
Fixpoint wild_match (p s : string) : bool :=
  match p with
  | EmptyString => match s with EmptyString => true | String _ _ => false end
  | String c p' =>
      if Ascii.eqb c "*" then
        (fix star (s : string) : bool :=
           wild_match p' s
           || match s with EmptyString => false | String _ s' => star s' end) s
      else
        match s with
        | EmptyString => false
        | String d s' => (Ascii.eqb c "?" || Ascii.eqb c d) && wild_match p' s'
        end
  end.

Definition is_wildcard (c : ascii) : bool := Ascii.eqb c "*" || Ascii.eqb c "?".

Fixpoint wildcard_free (s : string) : bool :=
  match s with
  | EmptyString => true
  | String c s' => negb (is_wildcard c) && wildcard_free s'
  end.

(** [path.resolve(dir, seg1, ..., segn)] on an absolute directory given by
    its segments: [".."] climbs one level, any other segment descends. *)
Definition path_step (acc : list string) (seg : string) : list string :=
  if String.eqb seg ".." then removelast acc else acc ++ [seg].

Definition path_resolve (dir : list string) (segs : list string) : list string :=
  fold_left path_step segs dir.

(** ** The CDK core *)
Module cdk.

(** Modelled from the spec: the enum is declared in the CDK, outside the
    repository; the spec lists [enum{Retain, Delete}].  Its members are
    non-empty strings, hence truthy. *)
Inductive DeletionPolicy := Delete | Retain.

(** The ambient partition / region / account of the stack that holds the
    construct ([cdk.Stack.find(this)]). *)
Record Stack := {
  partition : string;
  region : string;
  accountId : string;
}.

Record ArnComponents := {
  service : string;
  resource : string;
  sep : string;
  resourceName : string;
}.

(** Modelled from the spec: [Stack.formatArn] is CDK code outside the
    repository; ARNs have the form
    [arn:<partition>:<service>:<region>:<account>:<resource><sep><name>]. *)
Definition formatArn (st : Stack) (c : ArnComponents) : string :=
  "arn:" +:+ partition st +:+ ":" +:+ service c +:+ ":" +:+ region st +:+ ":"
    +:+ accountId st +:+ ":" +:+ resource c +:+ sep c +:+ resourceName c.

End cdk.

(** ** IAM policy documents *)
Module iam.

Inductive Effect := Allow | Deny.

Inductive PolicyPrincipal :=
| ArnPrincipal (arn : string)
| ServicePrincipal (svc : string).

Inductive ConditionOperator := StringEquals | StringLike | ArnLike | ArnEquals.

(** The value of a condition key: one string or an array of strings. *)
Inductive ConditionValue :=
| One (v : string)
| Many (vs : list string).

Definition ConditionBlock : Type := list (string * ConditionValue).

Record PolicyStatement := {
  sid : option string;
  effect : Effect;
  principals : list PolicyPrincipal;
  actions : list string;
  resources : list string;
  conditions : list (ConditionOperator * ConditionBlock);
}.

Global Instance Effect_eq_dec : EqDecision Effect.
Proof. solve_decision. Defined.
Global Instance PolicyPrincipal_eq_dec : EqDecision PolicyPrincipal.
Proof. solve_decision. Defined.
Global Instance ConditionOperator_eq_dec : EqDecision ConditionOperator.
Proof. solve_decision. Defined.

(** [new iam.PolicyStatement()] *)
Definition new_PolicyStatement : PolicyStatement :=
  {| sid := None; effect := Allow; principals := []; actions := [];
     resources := []; conditions := [] |}.

(** The fluent builder; each method returns the statement it updated. *)
Definition describe (d : string) (s : PolicyStatement) : PolicyStatement :=
  {| sid := Some d; effect := effect s; principals := principals s;
     actions := actions s; resources := resources s; conditions := conditions s |}.

Definition addActions (l : list string) (s : PolicyStatement) : PolicyStatement :=
  {| sid := sid s; effect := effect s; principals := principals s;
     actions := actions s ++ l; resources := resources s; conditions := conditions s |}.

Definition addAction (a : string) : PolicyStatement → PolicyStatement := addActions [a].

Definition addResource (r : string) (s : PolicyStatement) : PolicyStatement :=
  {| sid := sid s; effect := effect s; principals := principals s;
     actions := actions s; resources := resources s ++ [r]; conditions := conditions s |}.

Definition addAllResources : PolicyStatement → PolicyStatement := addResource "*".

Definition addPrincipal (p : PolicyPrincipal) (s : PolicyStatement) : PolicyStatement :=
  {| sid := sid s; effect := effect s; principals := principals s ++ [p];
     actions := actions s; resources := resources s; conditions := conditions s |}.

Definition addAwsPrincipal (arn : string) : PolicyStatement → PolicyStatement :=
  addPrincipal (ArnPrincipal arn).

(** [addCondition(op, block)] assigns [conditions[op] = block]: an operator
    already present is overwritten in place, a new one comes last. *)
Fixpoint set_condition (op : ConditionOperator) (b : ConditionBlock)
    (cs : list (ConditionOperator * ConditionBlock))
    : list (ConditionOperator * ConditionBlock) :=
  match cs with
  | [] => [(op, b)]
  | (op', b') :: cs' =>
      if decide (op' = op) then (op, b) :: cs' else (op', b') :: set_condition op b cs'
  end.

Definition addCondition (op : ConditionOperator) (b : ConditionBlock)
    (s : PolicyStatement) : PolicyStatement :=
  {| sid := sid s; effect := effect s; principals := principals s;
     actions := actions s; resources := resources s;
     conditions := set_condition op b (conditions s) |}.

Record Role := { roleArn : string }.

(** [new iam.Policy(scope, id, { roles, statements })] *)
Record Policy := {
  policyId : string;
  roles : list Role;
  statements : list PolicyStatement;
}.

(** A grantee: the object whose policy [addToPolicy] extends, and the
    principal it stands for in resource policies. *)
Record IPrincipal := {
  principalId : string;
  principal : PolicyPrincipal;
}.

End iam.

Module kms.
(** [kms.IEncryptionKey]; the resource policy of the key lives in the
    [World], under the key's ARN. *)
Record EncryptionKey := { keyArn : string }.
End kms.

(** Left-to-right application, to read the builder chains as in the source. *)
Notation "s |>> f" := (f s) (at level 45, left associativity, only parsing).

(** ** The Lambda function that backs the custom resource *)
Module lambda.

Inductive Runtime := NodeJS810.

Record SingletonFunctionProps := {
  lambdaPurpose : string;
  uuid : string;
  description : string;
  runtime : Runtime;
  handler : string;
  code : list string;     (* [new lambda.AssetCode(path)] *)
  timeout : Z;
}.

(** What the source reads off the function object: its name, and its
    execution role, which the CDK types as possibly absent
    ([role?: iam.Role]). *)
Record Function := {
  functionName : string;
  role : option iam.Role;
  props : SingletonFunctionProps;
}.

End lambda.

(** ** CloudFormation custom resources *)
Module cfn.

(** The [properties] bag of the [Custom::RsaPrivateKeySecret] resource:
    the request payload sent to the handler. *)
Record Properties := {
  resourceVersion : string;
  description : option string;
  keySize : Z;
  secretName : string;
  kmsKeyId : option string;
}.

(** What [node.addDependency] accepts in this file. *)
Inductive Dependable :=
| DepRole (r : iam.Role)
| DepPolicy (p : iam.Policy).

Record CustomResource := {
  path : string;
  lambdaProvider : lambda.Function;
  resourceType : string;
  properties : Properties;
  dependencies : list Dependable;        (* [node.addDependency] *)
  deletionPolicy : option cdk.DeletionPolicy;  (* [options.deletionPolicy] *)
}.

Definition addDependency (d : Dependable) (r : CustomResource) : CustomResource :=
  {| path := path r; lambdaProvider := lambdaProvider r; resourceType := resourceType r;
     properties := properties r; dependencies := dependencies r ++ [d];
     deletionPolicy := deletionPolicy r |}.

Definition set_deletionPolicy (p : option cdk.DeletionPolicy) (r : CustomResource)
    : CustomResource :=
  {| path := path r; lambdaProvider := lambdaProvider r; resourceType := resourceType r;
     properties := properties r; dependencies := dependencies r;
     deletionPolicy := p |}.

(** [r.getAtt(name).toString()]: a deploy-time token naming the attribute. *)
Definition getAtt (r : CustomResource) (att : string) : string :=
  "${Token[" +:+ path r +:+ "." +:+ att +:+ "]}".

End cfn.

(** ** The construct's own types *)

(** [keySize] is a JavaScript number that the construct only passes on; the
    integers are all the claims need. *)
Record RsaPrivateKeySecretProps := {
  keySize : Z;
  secretName : string;
  description : option string;
  secretEncryptionKey : option kms.EncryptionKey;
  deletionPolicy : option cdk.DeletionPolicy;
}.

Definition set_props_deletionPolicy (d : cdk.DeletionPolicy)
    (p : RsaPrivateKeySecretProps) : RsaPrivateKeySecretProps :=
  {| keySize := keySize p; secretName := secretName p; description := description p;
     secretEncryptionKey := secretEncryptionKey p; deletionPolicy := Some d |}.

(** The fields of the class, plus the stack the construct sits in
    ([cdk.Stack.find(this)]). *)
Record RsaPrivateKeySecret := {
  secretArn : string;
  secretArnLike : string;
  masterKey : option kms.EncryptionKey;
  this_stack : cdk.Stack;
}.

(** What the construct finds around it and does not change: its stack, the
    directory of the compiled module ([__dirname]), the content hash of a
    file or directory ([hashFileOrDirectory] of [../util], not part of the
    sources at hand), and the name and role of the singleton handler that
    the Lambda library creates or finds. *)
Record Env := {
  stack : cdk.Stack;
  dirname : list string;
  hashFileOrDirectory : list string → string;
  handlerName : string;
  handlerRole : option iam.Role;
}.

(** [new lambda.SingletonFunction(this, 'ResourceHandler', props)] *)
Definition SingletonFunction (env : Env) (p : lambda.SingletonFunctionProps) : lambda.Function :=
  {| lambda.functionName := handlerName env;
     lambda.role := handlerRole env;
     lambda.props := p |}.

(** ** The mutable world *)

(** Objects that outlive a call and are shared by reference:
    - the props objects callers hand to the constructor;
    - the statements handed to the handler through [addToRolePolicy];
    - the resource policy of each KMS key;
    - the policy of each grantee;
    - the [iam.Policy] and [cfn.CustomResource] constructs created so far. *)
Record World := {
  props_heap : gmap nat RsaPrivateKeySecretProps;
  handler_policy : list iam.PolicyStatement;
  key_policies : gmap string (list iam.PolicyStatement);
  principal_policies : gmap string (list iam.PolicyStatement);
  policies : list iam.Policy;
  custom_resources : list cfn.CustomResource;
}.

Inductive Error := TypeError (msg : string).

Inductive result (A : Type) :=
| Ok (a : A)
| Throw (e : Error).
Arguments Ok {A} a.
Arguments Throw {A} e.

Definition M (A : Type) : Type := World → World * result A.

Global Instance M_ret : MRet M := λ A a w, (w, Ok a).
Global Instance M_bind : MBind M := λ A B f m w,
  match m w with
  | (w', Ok a) => f a w'
  | (w', Throw e) => (w', Throw e)
  end.

Definition throw {A} (e : Error) : M A := λ w, (w, Throw e).

(** Appending one statement to the policy stored under [k]. *)
Definition push_statement (k : string) (s : iam.PolicyStatement)
    (m : gmap string (list iam.PolicyStatement)) : gmap string (list iam.PolicyStatement) :=
  <[k := default [] (m !! k) ++ [s]]> m.

(** Reading and writing a props object through its reference. *)
Definition read_props (r : nat) : M RsaPrivateKeySecretProps := λ w,
  match props_heap w !! r with
  | Some p => (w, Ok p)
  | None => (w, Throw (TypeError "Cannot read properties of undefined"))
  end.

Definition write_props (r : nat) (p : RsaPrivateKeySecretProps) : M unit := λ w,
  ({| props_heap := <[r := p]> (props_heap w);
      handler_policy := handler_policy w;
      key_policies := key_policies w;
      principal_policies := principal_policies w;
      policies := policies w;
      custom_resources := custom_resources w |}, Ok tt).

(** [fn.addToRolePolicy(statement)] on the singleton handler: the statement
    is recorded as handed over.  The library attaches it to the execution
    role when the handler has one and drops it otherwise; [role_policy]
    reads the record accordingly. *)
Definition addToRolePolicy (s : iam.PolicyStatement) : M unit := λ w,
  ({| props_heap := props_heap w;
      handler_policy := handler_policy w ++ [s];
      key_policies := key_policies w;
      principal_policies := principal_policies w;
      policies := policies w;
      custom_resources := custom_resources w |}, Ok tt).

(** [key.addToResourcePolicy(statement)] *)
Definition addToResourcePolicy (k : kms.EncryptionKey) (s : iam.PolicyStatement) : M unit := λ w,
  ({| props_heap := props_heap w;
      handler_policy := handler_policy w;
      key_policies := push_statement (kms.keyArn k) s (key_policies w);
      principal_policies := principal_policies w;
      policies := policies w;
      custom_resources := custom_resources w |}, Ok tt).

(** [grantee.addToPolicy(statement)] *)
Definition addToPolicy (g : iam.IPrincipal) (s : iam.PolicyStatement) : M unit := λ w,
  ({| props_heap := props_heap w;
      handler_policy := handler_policy w;
      key_policies := key_policies w;
      principal_policies := push_statement (iam.principalId g) s (principal_policies w);
      policies := policies w;
      custom_resources := custom_resources w |}, Ok tt).

(** [new iam.Policy(this, id, { roles, statements })] enters the tree. *)
Definition new_Policy (p : iam.Policy) : M iam.Policy := λ w,
  ({| props_heap := props_heap w;
      handler_policy := handler_policy w;
      key_policies := key_policies w;
      principal_policies := principal_policies w;
      policies := policies w ++ [p];
      custom_resources := custom_resources w |}, Ok p).

(** The custom resource enters the tree with the dependencies and options
    it holds when the constructor returns. *)
Definition register_CustomResource (r : cfn.CustomResource) : M unit := λ w,
  ({| props_heap := props_heap w;
      handler_policy := handler_policy w;
      key_policies := key_policies w;
      principal_policies := principal_policies w;
      policies := policies w;
      custom_resources := custom_resources w ++ [r] |}, Ok tt).

(** [x!.f]: reading a field of an absent object throws. *)
Definition non_null {A} (o : option A) (what : string) : M A :=
  match o with
  | Some a => mret a
  | None => throw (TypeError ("Cannot read property '" +:+ what +:+ "' of undefined"))
  end.

(** ** The constructor *)

(** [new RsaPrivateKeySecret(parent, id, props)]; [id] is the path of the
    new construct in the tree, [props] the reference to the caller's props
    object. *)
Definition constructor (env : Env) (id : string) (props : nat) : M RsaPrivateKeySecret :=
  p ← read_props props;
  (* props.deletionPolicy = props.deletionPolicy || cdk.DeletionPolicy.Retain *)
  write_props props (set_props_deletionPolicy (default cdk.Retain (deletionPolicy p)) p);;
  p ← read_props props;
  let codeLocation :=
    path_resolve (dirname env) [".."; ".."; "custom-resource-handlers"; "bin"; "private-key"] in
  let customResource := SingletonFunction env
    {| lambda.lambdaPurpose := "RSAPrivate-Key";
       lambda.uuid := "72FD327D-3813-4632-9340-28EC437AA486";
       lambda.description := "Generates an RSA Private Key and stores it in AWS Secrets Manager";
       lambda.runtime := lambda.NodeJS810;
       lambda.handler := "index.handler";
       lambda.code := codeLocation;
       lambda.timeout := 300 |} in
  let secretArnLike := cdk.formatArn (stack env)
    {| cdk.service := "secretsmanager";
       cdk.resource := "secret";
       cdk.sep := ":";
       (* The ARN of a secret has "-" followed by 6 random characters appended at the end *)
       cdk.resourceName := secretName p +:+ "-??????" |} in
  addToRolePolicy (iam.new_PolicyStatement
    |>> iam.addActions ["secretsmanager:CreateSecret";
                        "secretsmanager:DeleteSecret";
                        "secretsmanager:UpdateSecret"]
    |>> iam.addResource secretArnLike);;
  match secretEncryptionKey p with
  | Some key =>
      role ← non_null (lambda.role customResource) "roleArn";
      addToResourcePolicy key (iam.new_PolicyStatement
        |>> iam.describe ("Allow use via AWS Secrets Manager by CustomResource handler "
                          +:+ lambda.functionName customResource)
        |>> iam.addAwsPrincipal (iam.roleArn role)
        |>> iam.addActions ["kms:Decrypt"; "kms:GenerateDataKey"]
        |>> iam.addAllResources
        |>> iam.addCondition iam.StringEquals
              [("kms:ViaService",
                iam.One ("secretsmanager." +:+ cdk.region (stack env) +:+ ".amazonaws.com"))]
        |>> iam.addCondition iam.ArnLike
              [("kms:EncryptionContext:SecretARN", iam.One secretArnLike)])
  | None => mret tt
  end;;
  let privateKey :=
    {| cfn.path := id +:+ "/Resource";
       cfn.lambdaProvider := customResource;
       cfn.resourceType := "Custom::RsaPrivateKeySecret";
       cfn.properties :=
         {| cfn.resourceVersion := hashFileOrDirectory env codeLocation;
            cfn.description := description p;
            cfn.keySize := keySize p;
            cfn.secretName := secretName p;
            cfn.kmsKeyId := kms.keyArn <$> secretEncryptionKey p |};
       cfn.dependencies := [];
       cfn.deletionPolicy := None |} in
  privateKey ←
    match lambda.role customResource with
    | Some role =>
        let privateKey := cfn.addDependency (cfn.DepRole role) privateKey in
        match secretEncryptionKey p with
        | Some key =>
            (* Modeling as a separate Policy to evade a dependency cycle
               (Role -> Key -> Role), as the Key refers to the role in its
               resource policy. *)
            grant ← new_Policy
              {| iam.policyId := id +:+ "/GrantLambdaRoleKeyAccess";
                 iam.roles := [role];
                 iam.statements :=
                   [iam.new_PolicyStatement
                      |>> iam.describe ("AWSSecretsManager"
                                        +:+ strip_non_alnum (secretName p) +:+ "CMK")
                      |>> iam.addActions ["kms:Decrypt"; "kms:GenerateDataKey"]
                      |>> iam.addResource (kms.keyArn key)
                      |>> iam.addCondition iam.StringEquals
                            [("kms:ViaService",
                              iam.One ("secretsmanager." +:+ cdk.region (stack env)
                                       +:+ ".amazonaws.com"))]
                      |>> iam.addCondition iam.StringLike
                            [("kms:EncryptionContext:SecretARN",
                              iam.Many [secretArnLike; "RequestToValidateKeyAccess"])]] |};
            mret (cfn.addDependency (cfn.DepPolicy grant) privateKey)
        | None => mret privateKey
        end
    | None => mret privateKey
    end;
  let privateKey := cfn.set_deletionPolicy (deletionPolicy p) privateKey in
  register_CustomResource privateKey;;
  mret {| masterKey := secretEncryptionKey p;
          secretArn := cfn.getAtt privateKey "SecretArn";
          secretArnLike := secretArnLike;
          this_stack := stack env |}.

(** ** [grantGetSecretValue] *)

(** Allows a given principal to read the secret value. *)
Definition grantGetSecretValue (this : RsaPrivateKeySecret) (grantee : iam.IPrincipal) : M unit :=
  addToPolicy grantee (iam.new_PolicyStatement
    |>> iam.addAction "secretsmanager:GetSecretValue"
    |>> iam.addResource (secretArn this));;
  match masterKey this with
  | Some key =>
      (* Add a key grant since we're using a CMK *)
      addToResourcePolicy key (iam.new_PolicyStatement
        |>> iam.addAction "kms:Decrypt"
        |>> iam.addAllResources
        |>> iam.addPrincipal (iam.principal grantee)
        |>> iam.addCondition iam.StringEquals
              [("kms:ViaService",
                iam.One ("secretsmanager." +:+ cdk.region (this_stack this) +:+ ".amazonaws.com"))]
        |>> iam.addCondition iam.ArnLike
              [("kms:EncryptionContext:SecretARN", iam.One (secretArnLike this))]);;
      addToPolicy grantee (iam.new_PolicyStatement
        |>> iam.addAction "kms:Decrypt"
        |>> iam.addResource (kms.keyArn key)
        |>> iam.addCondition iam.StringEquals
              [("kms:ViaService",
                iam.One ("secretsmanager." +:+ cdk.region (this_stack this) +:+ ".amazonaws.com"))]
        |>> iam.addCondition iam.ArnEquals
              [("kms:EncryptionContext:SecretARN", iam.One (secretArn this))])
  | None => mret tt
  end.

(** ** The provisioning graph *)

(** The operations the dependency edges range over: provisioning the
    secret (the custom resource), creating the handler's execution role,
    and creating the separate key-grant policy. *)
Inductive Op := SecretOp | RoleOp | KeyGrantOp.

Global Instance Op_eq_dec : EqDecision Op.
Proof. solve_decision. Defined.

Definition dependable_op (d : cfn.Dependable) : Op :=
  match d with
  | cfn.DepRole _ => RoleOp
  | cfn.DepPolicy _ => KeyGrantOp
  end.

(** An edge [(a, b)] reads "[a] must not run before [b] has completed".
    Every [node.addDependency(d)] on the custom resource is one edge that
    leaves the secret operation. *)
Definition dependency_edges (r : cfn.CustomResource) : list (Op * Op) :=
  map (λ d, (SecretOp, dependable_op d)) (cfn.dependencies r).

(** ** Granted-permission semantics *)

Record Request := {
  req_principal : iam.PolicyPrincipal;
  req_action : string;
  req_resource : string;
  req_context : gmap string string;
}.

Definition condition_values (v : iam.ConditionValue) : list string :=
  match v with
  | iam.One s => [s]
  | iam.Many l => l
  end.

(** Modelled from the spec: how one condition operator compares the value a
    statement lists with the value of the request.  The spec speaks of
    "exact-match" ([StringEquals], [ArnEquals]) and of "pattern-match"
    ([StringLike], [ArnLike]) conditions. *)
Definition operator_test (op : iam.ConditionOperator) (listed actual : string) : bool :=
  match op with
  | iam.StringEquals | iam.ArnEquals => String.eqb listed actual
  | iam.StringLike | iam.ArnLike => wild_match listed actual
  end.

(** Modelled from the spec: a condition key holds when the request carries
    the key and its value passes the operator for one of the listed values
    ("allow-list style match"); a statement's conditions hold when every key
    of every operator does. *)
Definition key_holds (ctx : gmap string string) (op : iam.ConditionOperator)
    (kv : string * iam.ConditionValue) : bool :=
  match ctx !! kv.1 with
  | Some actual => existsb (λ listed, operator_test op listed actual) (condition_values kv.2)
  | None => false
  end.

Definition conditions_hold (ctx : gmap string string) (s : iam.PolicyStatement) : bool :=
  forallb (λ ob, forallb (key_holds ctx ob.1) ob.2) (iam.conditions s).

(** Modelled from the spec: a statement applies to a request when its
    principal (if it names any), one of its actions and one of its resources
    match and its conditions hold. *)
Definition statement_applies (req : Request) (s : iam.PolicyStatement) : bool :=
  match iam.principals s with
  | [] => true
  | ps => bool_decide (req_principal req ∈ ps)
  end
  && existsb (λ a, wild_match a (req_action req)) (iam.actions s)
  && existsb (λ r, wild_match r (req_resource req)) (iam.resources s)
  && conditions_hold (req_context req) s.

(** Modelled from the spec: a policy grants a request when some [Allow]
    statement applies and no [Deny] statement does. *)
Definition policy_allows (req : Request) (l : list iam.PolicyStatement) : bool :=
  existsb (λ s, bool_decide (iam.effect s = iam.Allow) && statement_applies req s) l
  && negb (existsb (λ s, bool_decide (iam.effect s = iam.Deny) && statement_applies req s) l).

(** The statements in force for a grantee / on a key. *)
Definition principal_policy (w : World) (g : iam.IPrincipal) : list iam.PolicyStatement :=
  default [] (principal_policies w !! iam.principalId g).

Definition key_policy (w : World) (k : kms.EncryptionKey) : list iam.PolicyStatement :=
  default [] (key_policies w !! kms.keyArn k).

(** Two worlds that grant the same permissions: every policy in them
    answers every request alike. *)
Definition same_permissions (w1 w2 : World) : Prop :=
  ∀ req,
    (∀ g, policy_allows req (principal_policy w1 g) = policy_allows req (principal_policy w2 g))
    ∧ (∀ k, policy_allows req (key_policy w1 k) = policy_allows req (key_policy w2 k))
    ∧ policy_allows req (handler_policy w1) = policy_allows req (handler_policy w2).

(** The endpoint of Secrets Manager in the region of a stack, as the value
    of [kms:ViaService]. *)
Definition secretsmanager_endpoint (st : cdk.Stack) : string :=
  "secretsmanager." +:+ cdk.region st +:+ ".amazonaws.com".

(** The pattern the constructor resolves for a secret name. *)
Definition secret_pattern (st : cdk.Stack) (name : string) : string :=
  cdk.formatArn st
    {| cdk.service := "secretsmanager"; cdk.resource := "secret";
       cdk.sep := ":"; cdk.resourceName := name +:+ "-??????" |}.

Definition empty_world : World :=
  {| props_heap := ∅; handler_policy := []; key_policies := ∅;
     principal_policies := ∅; policies := []; custom_resources := [] |}.

Definition with_props (r : nat) (p : RsaPrivateKeySecretProps) (w : World) : World :=
  {| props_heap := <[r := p]> (props_heap w);
     handler_policy := handler_policy w;
     key_policies := key_policies w;
     principal_policies := principal_policies w;
     policies := policies w;
     custom_resources := custom_resources w |}.

(** ** The values the properties speak about *)

(** The props object as the constructor leaves it. *)
Definition defaulted (p : RsaPrivateKeySecretProps) : RsaPrivateKeySecretProps :=
  set_props_deletionPolicy (default cdk.Retain (deletionPolicy p)) p.

(** The statement that lets the handler create, delete and update the
    secret. *)
Definition lifecycle_statement (pattern : string) : iam.PolicyStatement :=
  {| iam.sid := None;
     iam.effect := iam.Allow;
     iam.principals := [];
     iam.actions := ["secretsmanager:CreateSecret"; "secretsmanager:DeleteSecret";
                     "secretsmanager:UpdateSecret"];
     iam.resources := [pattern];
     iam.conditions := [] |}.

(** The statement put on the key's resource policy for the handler's role. *)
Definition key_resource_statement (fn roleArn endpoint pattern : string) : iam.PolicyStatement :=
  {| iam.sid := Some ("Allow use via AWS Secrets Manager by CustomResource handler " +:+ fn);
     iam.effect := iam.Allow;
     iam.principals := [iam.ArnPrincipal roleArn];
     iam.actions := ["kms:Decrypt"; "kms:GenerateDataKey"];
     iam.resources := ["*"];
     iam.conditions :=
       [(iam.StringEquals, [("kms:ViaService", iam.One endpoint)]);
        (iam.ArnLike, [("kms:EncryptionContext:SecretARN", iam.One pattern)])] |}.

(** The statement of the separate key-grant policy attached to the role. *)
Definition key_grant_statement (name keyArn endpoint pattern : string) : iam.PolicyStatement :=
  {| iam.sid := Some ("AWSSecretsManager" +:+ strip_non_alnum name +:+ "CMK");
     iam.effect := iam.Allow;
     iam.principals := [];
     iam.actions := ["kms:Decrypt"; "kms:GenerateDataKey"];
     iam.resources := [keyArn];
     iam.conditions :=
       [(iam.StringEquals, [("kms:ViaService", iam.One endpoint)]);
        (iam.StringLike,
         [("kms:EncryptionContext:SecretARN",
           iam.Many [pattern; "RequestToValidateKeyAccess"])])] |}.

Definition key_grant_policy (env : Env) (id : string) (role : iam.Role)
    (key : kms.EncryptionKey) (p : RsaPrivateKeySecretProps) : iam.Policy :=
  {| iam.policyId := id +:+ "/GrantLambdaRoleKeyAccess";
     iam.roles := [role];
     iam.statements :=
       [key_grant_statement (secretName p) (kms.keyArn key)
          (secretsmanager_endpoint (stack env)) (secret_pattern (stack env) (secretName p))] |}.

(** The directory of the handler's code and the handler itself. *)
Definition code_location (env : Env) : list string :=
  path_resolve (dirname env) [".."; ".."; "custom-resource-handlers"; "bin"; "private-key"].

Definition resource_handler (env : Env) : lambda.Function :=
  SingletonFunction env
    {| lambda.lambdaPurpose := "RSAPrivate-Key";
       lambda.uuid := "72FD327D-3813-4632-9340-28EC437AA486";
       lambda.description := "Generates an RSA Private Key and stores it in AWS Secrets Manager";
       lambda.runtime := lambda.NodeJS810;
       lambda.handler := "index.handler";
       lambda.code := code_location env;
       lambda.timeout := 300 |}.

(** The request payload for a props object. *)
Definition provisioning_request (env : Env) (p : RsaPrivateKeySecretProps) : cfn.Properties :=
  {| cfn.resourceVersion := hashFileOrDirectory env (code_location env);
     cfn.description := description p;
     cfn.keySize := keySize p;
     cfn.secretName := secretName p;
     cfn.kmsKeyId := kms.keyArn <$> secretEncryptionKey p |}.

(** The dependencies the constructor declares on the custom resource. *)
Definition declared_dependencies (env : Env) (id : string) (p : RsaPrivateKeySecretProps)
    : list cfn.Dependable :=
  match handlerRole env with
  | Some role =>
      cfn.DepRole role ::
      match secretEncryptionKey p with
      | Some key => [cfn.DepPolicy (key_grant_policy env id role key p)]
      | None => []
      end
  | None => []
  end.

Definition private_key_resource (env : Env) (id : string) (p : RsaPrivateKeySecretProps)
    : cfn.CustomResource :=
  {| cfn.path := id +:+ "/Resource";
     cfn.lambdaProvider := resource_handler env;
     cfn.resourceType := "Custom::RsaPrivateKeySecret";
     cfn.properties := provisioning_request env p;
     cfn.dependencies := declared_dependencies env id p;
     cfn.deletionPolicy := Some (default cdk.Retain (deletionPolicy p)) |}.

Definition constructed (env : Env) (id : string) (p : RsaPrivateKeySecretProps)
    : RsaPrivateKeySecret :=
  {| secretArn := "${Token[" +:+ (id +:+ "/Resource") +:+ ".SecretArn]}";
     secretArnLike := secret_pattern (stack env) (secretName p);
     masterKey := secretEncryptionKey p;
     this_stack := stack env |}.

(** The statements [grantGetSecretValue] builds. *)
Definition read_secret_statement (arn : string) : iam.PolicyStatement :=
  {| iam.sid := None;
     iam.effect := iam.Allow;
     iam.principals := [];
     iam.actions := ["secretsmanager:GetSecretValue"];
     iam.resources := [arn];
     iam.conditions := [] |}.

Definition key_resource_read_statement (who : iam.PolicyPrincipal)
    (endpoint pattern : string) : iam.PolicyStatement :=
  {| iam.sid := None;
     iam.effect := iam.Allow;
     iam.principals := [who];
     iam.actions := ["kms:Decrypt"];
     iam.resources := ["*"];
     iam.conditions :=
       [(iam.StringEquals, [("kms:ViaService", iam.One endpoint)]);
        (iam.ArnLike, [("kms:EncryptionContext:SecretARN", iam.One pattern)])] |}.

Definition key_principal_read_statement (keyArn endpoint arn : string) : iam.PolicyStatement :=
  {| iam.sid := None;
     iam.effect := iam.Allow;
     iam.principals := [];
     iam.actions := ["kms:Decrypt"];
     iam.resources := [keyArn];
     iam.conditions :=
       [(iam.StringEquals, [("kms:ViaService", iam.One endpoint)]);
        (iam.ArnEquals, [("kms:EncryptionContext:SecretARN", iam.One arn)])] |}.

(** A statement that touches the key service. *)
Definition is_kms_statement (s : iam.PolicyStatement) : bool :=
  existsb (λ a, wild_match "kms:*" a) (iam.actions s).

(** The constructor runs to its end unless it has to read the ARN of a
    role the handler does not have. *)
Definition completes (env : Env) (p : RsaPrivateKeySecretProps) : Prop :=
  secretEncryptionKey p = None ∨ is_Some (handlerRole env).

(** The world a completed construction leaves. *)
Definition world_after (env : Env) (id : string) (r : nat) (p : RsaPrivateKeySecretProps)
    (w : World) : World :=
  {| props_heap := <[r := defaulted p]> (props_heap w);
     handler_policy :=
       handler_policy w ++ [lifecycle_statement (secret_pattern (stack env) (secretName p))];
     key_policies :=
       match secretEncryptionKey p, handlerRole env with
       | Some key, Some role =>
           push_statement (kms.keyArn key)
             (key_resource_statement (handlerName env) (iam.roleArn role)
                (secretsmanager_endpoint (stack env))
                (secret_pattern (stack env) (secretName p)))
             (key_policies w)
       | _, _ => key_policies w
       end;
     principal_policies := principal_policies w;
     policies :=
       policies w ++
       match secretEncryptionKey p, handlerRole env with
       | Some key, Some role => [key_grant_policy env id role key p]
       | _, _ => []
       end;
     custom_resources := custom_resources w ++ [private_key_resource env id p] |}.

(** The request payload of the custom resource created last. *)
Definition last_request (w : World) : option cfn.Properties :=
  cfn.properties <$> last (custom_resources w).

(** The ARNs Secrets Manager can give a secret called [name] in the stack:
    the stack's ARN for [secret:<name>-XXXXXX], with six characters after
    the dash. *)
Definition secret_arn_shape (st : cdk.Stack) (name arn : string) : Prop :=
  ∃ suffix : string,
    String.length suffix = 6%nat
    ∧ arn = cdk.formatArn st
              {| cdk.service := "secretsmanager"; cdk.resource := "secret";
                 cdk.sep := ":"; cdk.resourceName := name +:+ "-" +:+ suffix |}.

(** The stack context and the name carry no wildcard of their own. *)
Definition literal_context (st : cdk.Stack) (name : string) : bool :=
  wildcard_free (cdk.partition st) && wildcard_free (cdk.region st)
  && wildcard_free (cdk.accountId st) && wildcard_free name.

(** What one call of [grantGetSecretValue] appends to the policy of a
    principal object and to the resource policy of a key. *)
Definition granted_to_principal (this : RsaPrivateKeySecret) (grantee g : iam.IPrincipal)
    : list iam.PolicyStatement :=
  if decide (iam.principalId grantee = iam.principalId g) then
    read_secret_statement (secretArn this) ::
    match masterKey this with
    | Some key =>
        [key_principal_read_statement (kms.keyArn key)
           (secretsmanager_endpoint (this_stack this)) (secretArn this)]
    | None => []
    end
  else [].

Definition granted_on_key (this : RsaPrivateKeySecret) (grantee : iam.IPrincipal)
    (k : kms.EncryptionKey) : list iam.PolicyStatement :=
  match masterKey this with
  | Some key =>
      if decide (kms.keyArn key = kms.keyArn k) then
        [key_resource_read_statement (iam.principal grantee)
           (secretsmanager_endpoint (this_stack this)) (secretArnLike this)]
      else []
  | None => []
  end.

(** ** Sample inputs *)

Definition sample_stack : cdk.Stack :=
  {| cdk.partition := "aws"; cdk.region := "us-east-1"; cdk.accountId := "123456789012" |}.

Definition sample_role : iam.Role :=
  {| iam.roleArn := "arn:aws:iam::123456789012:role/handler" |}.

Definition sample_hash (h : string) (path : list string) : string :=
  h +:+ "/" +:+ String.concat "/" path.

Definition sample_env : Env :=
  {| stack := sample_stack;
     dirname := ["srv"; "delivlib"; "lib"; "code-signing"];
     hashFileOrDirectory := sample_hash "3f9a";
     handlerName := "SingletonLambda72FD327D";
     handlerRole := Some sample_role |}.

(** The same surroundings after the handler's code changed. *)
Definition rebuilt_env : Env :=
  {| stack := sample_stack;
     dirname := ["srv"; "delivlib"; "lib"; "code-signing"];
     hashFileOrDirectory := sample_hash "c07e";
     handlerName := "SingletonLambda72FD327D";
     handlerRole := Some sample_role |}.

(** Surroundings whose handler has no role of its own. *)
Definition roleless_env : Env :=
  {| stack := sample_stack;
     dirname := ["srv"; "delivlib"; "lib"; "code-signing"];
     hashFileOrDirectory := sample_hash "3f9a";
     handlerName := "SingletonLambda72FD327D";
     handlerRole := None |}.

Definition sample_key : kms.EncryptionKey :=
  {| kms.keyArn := "arn:aws:kms:us-east-1:123456789012:key/1234abcd" |}.

Definition plain_props : RsaPrivateKeySecretProps :=
  {| keySize := 2048; secretName := "db-root"; description := None;
     secretEncryptionKey := None; deletionPolicy := None |}.

Definition keyed_props : RsaPrivateKeySecretProps :=
  {| keySize := 2048; secretName := "db-root"; description := Some "signing key";
     secretEncryptionKey := Some sample_key; deletionPolicy := Some cdk.Delete |}.

Definition invalid_props : RsaPrivateKeySecretProps :=
  {| keySize := -1; secretName := ""; description := None;
     secretEncryptionKey := None; deletionPolicy := None |}.

Definition wildcard_props : RsaPrivateKeySecretProps :=
  {| keySize := 2048; secretName := "?"; description := None;
     secretEncryptionKey := None; deletionPolicy := None |}.

Definition sample_grantee : iam.IPrincipal :=
  {| iam.principalId := "Stack/Reader";
     iam.principal := iam.ArnPrincipal "arn:aws:iam::123456789012:role/reader" |}.

Definition plain_secret : RsaPrivateKeySecret := constructed sample_env "Key" plain_props.
Definition keyed_secret : RsaPrivateKeySecret := constructed sample_env "Key" keyed_props.

(** ** Further notions *)

(** Every character of a string is an ASCII digit or letter. *)
Fixpoint all_alnum (s : string) : bool :=
  match s with
  | EmptyString => true
  | String c s' => is_alnum c && all_alnum s'
  end.

(** What one construction appends to the resource policy of a key. *)
Definition constructed_on_key (env : Env) (p : RsaPrivateKeySecretProps)
    (k : kms.EncryptionKey) : list iam.PolicyStatement :=
  match secretEncryptionKey p, handlerRole env with
  | Some key, Some role =>
      if decide (kms.keyArn key = kms.keyArn k) then
        [key_resource_statement (handlerName env) (iam.roleArn role)
           (secretsmanager_endpoint (stack env))
           (secret_pattern (stack env) (secretName p))]
      else []
  | _, _ => []
  end.

(** Some [Deny] statement of a policy applies to the request. *)
Definition denied (req : Request) (l : list iam.PolicyStatement) : bool :=
  existsb (λ s, bool_decide (iam.effect s = iam.Deny) && statement_applies req s) l.

(** Nothing that was granted in [w] is withdrawn in [w']. *)
Definition permissions_kept (w w' : World) : Prop :=
  ∀ req,
    (∀ g, policy_allows req (principal_policy w g) = true →
          policy_allows req (principal_policy w' g) = true)
    ∧ (∀ k, policy_allows req (key_policy w k) = true →
            policy_allows req (key_policy w' k) = true)
    ∧ (policy_allows req (handler_policy w) = true →
       policy_allows req (handler_policy w') = true).

(** The actions of the lifecycle statement. *)
Definition lifecycle_actions : list string :=
  ["secretsmanager:CreateSecret"; "secretsmanager:DeleteSecret"; "secretsmanager:UpdateSecret"].

(** More sample inputs: a second secret and a second reader. *)
Definition second_props : RsaPrivateKeySecretProps :=
  {| keySize := 4096; secretName := "api/signing_key"; description := None;
     secretEncryptionKey := Some sample_key; deletionPolicy := None |}.

Definition second_grantee : iam.IPrincipal :=
  {| iam.principalId := "Stack/Auditor";
     iam.principal := iam.ArnPrincipal "arn:aws:iam::123456789012:role/auditor" |}.

(** What the execution role of the handler holds: the statements handed
    over through [addToRolePolicy] when the handler has a role, nothing when
    it has none. *)
Definition role_policy (env : Env) (w : World) : list iam.PolicyStatement :=
  match handlerRole env with
  | Some _ => handler_policy w
  | None => []
  end.

(** A spec whose secret name is the wildcard itself. *)
Definition star_props : RsaPrivateKeySecretProps :=
  {| keySize := 2048; secretName := "*"; description := None;
     secretEncryptionKey := None; deletionPolicy := None |}.

(** * Properties *)

(** ** What the constructor does, case by case *)

(** Unfolds the monad and the world primitives, so that a run computes. *)
Ltac run_M :=
  unfold constructor, grantGetSecretValue, non_null, throw,
    mbind, M_bind, mret, M_ret, read_props, write_props,
    addToRolePolicy, addToResourcePolicy, addToPolicy, new_Policy,
    register_CustomResource; cbn.

Lemma constructor_without_key env id r w p :
  props_heap w !! r = Some p →
  secretEncryptionKey p = None →
  constructor env id r w =
    ({| props_heap := <[r := defaulted p]> (props_heap w);
        handler_policy :=
          handler_policy w ++ [lifecycle_statement (secret_pattern (stack env) (secretName p))];
        key_policies := key_policies w;
        principal_policies := principal_policies w;
        policies := policies w;
        custom_resources := custom_resources w ++ [private_key_resource env id p] |},
     Ok (constructed env id p)).
Proof.
  intros Hp Hk. run_M.
  rewrite Hp. cbn. rewrite lookup_insert_eq. cbn. rewrite Hk. cbn.
  unfold private_key_resource, declared_dependencies, provisioning_request, constructed.
  rewrite Hk. destruct (handlerRole env) as [role|]; reflexivity.
Qed.

Lemma constructor_with_key env id r w p key role :
  props_heap w !! r = Some p →
  secretEncryptionKey p = Some key →
  handlerRole env = Some role →
  constructor env id r w =
    ({| props_heap := <[r := defaulted p]> (props_heap w);
        handler_policy :=
          handler_policy w ++ [lifecycle_statement (secret_pattern (stack env) (secretName p))];
        key_policies :=
          push_statement (kms.keyArn key)
            (key_resource_statement (handlerName env) (iam.roleArn role)
               (secretsmanager_endpoint (stack env))
               (secret_pattern (stack env) (secretName p)))
            (key_policies w);
        principal_policies := principal_policies w;
        policies := policies w ++ [key_grant_policy env id role key p];
        custom_resources := custom_resources w ++ [private_key_resource env id p] |},
     Ok (constructed env id p)).
Proof.
  intros Hp Hk Hr. run_M.
  rewrite Hp. cbn. rewrite lookup_insert_eq. cbn. rewrite Hk, Hr. cbn.
  unfold private_key_resource, declared_dependencies, provisioning_request, constructed.
  rewrite Hk, Hr. reflexivity.
Qed.

Lemma constructor_with_key_without_role env id r w p key :
  props_heap w !! r = Some p →
  secretEncryptionKey p = Some key →
  handlerRole env = None →
  constructor env id r w =
    ({| props_heap := <[r := defaulted p]> (props_heap w);
        handler_policy :=
          handler_policy w ++ [lifecycle_statement (secret_pattern (stack env) (secretName p))];
        key_policies := key_policies w;
        principal_policies := principal_policies w;
        policies := policies w;
        custom_resources := custom_resources w |},
     Throw (TypeError "Cannot read property 'roleArn' of undefined")).
Proof.
  intros Hp Hk Hr. run_M.
  rewrite Hp. cbn. rewrite lookup_insert_eq. cbn. rewrite Hk, Hr. reflexivity.
Qed.

Lemma constructor_dangling_props env id r w :
  props_heap w !! r = None →
  constructor env id r w = (w, Throw (TypeError "Cannot read properties of undefined")).
Proof.
  intros Hp. run_M. rewrite Hp. reflexivity.
Qed.

Lemma constructor_completes env id r w p :
  props_heap w !! r = Some p →
  completes env p →
  constructor env id r w = (world_after env id r p w, Ok (constructed env id p)).
Proof.
  intros Hp Hc. unfold world_after.
  destruct (secretEncryptionKey p) as [key|] eqn:Hk.
  - destruct Hc as [Hc|[role Hr]]; [congruence|].
    rewrite (constructor_with_key env id r w p key role Hp Hk Hr), Hr. reflexivity.
  - rewrite (constructor_without_key env id r w p Hp Hk).
    destruct (handlerRole env); rewrite app_nil_r; reflexivity.
Qed.

(** The statement on the handler is pushed before anything can throw. *)
Lemma constructor_handler_policy env id r w p :
  props_heap w !! r = Some p →
  handler_policy (constructor env id r w).1 =
    handler_policy w ++ [lifecycle_statement (secret_pattern (stack env) (secretName p))].
Proof.
  intros Hp.
  destruct (secretEncryptionKey p) as [key|] eqn:Hk;
    [destruct (handlerRole env) as [role|] eqn:Hr|].
  - rewrite (constructor_with_key env id r w p key role Hp Hk Hr). reflexivity.
  - rewrite (constructor_with_key_without_role env id r w p key Hp Hk Hr). reflexivity.
  - rewrite (constructor_without_key env id r w p Hp Hk). reflexivity.
Qed.

Lemma constructor_props_heap env id r w p :
  props_heap w !! r = Some p →
  props_heap (constructor env id r w).1 = <[r := defaulted p]> (props_heap w).
Proof.
  intros Hp.
  destruct (secretEncryptionKey p) as [key|] eqn:Hk;
    [destruct (handlerRole env) as [role|] eqn:Hr|].
  - rewrite (constructor_with_key env id r w p key role Hp Hk Hr). reflexivity.
  - rewrite (constructor_with_key_without_role env id r w p key Hp Hk Hr). reflexivity.
  - rewrite (constructor_without_key env id r w p Hp Hk). reflexivity.
Qed.

(** ** The dependency edges of the custom resource *)

(** C1, as the code has it.  The constructor declares dependencies only
    under the guard [if (customResource.role)].  Whenever the handler has
    an execution role, construction completes and the dependency set of the
    secret-provisioning custom resource contains the edge from the secret
    operation to the role; when an encryption key is supplied it contains,
    in addition, the edge from the secret operation to a separate
    [iam.Policy] object that is attached to the role and holds the key-grant
    statement, while the handler's own policy receives the lifecycle
    statement only; without a key the edge to the role is the only one; and
    in no case does the set contain both [RoleOp -> KeyGrantOp] and
    [KeyGrantOp -> RoleOp].  Whenever the handler has no role, no edge is
    declared: without a key the custom resource is created with no
    dependency at all, and with a key the constructor throws before any
    custom resource or policy object is created. *)
Theorem dependency_edges_of_construction env id r w p :
  props_heap w !! r = Some p →
  (∀ role, handlerRole env = Some role →
     ∃ w' this cr,
       constructor env id r w = (w', Ok this)
       ∧ custom_resources w' = custom_resources w ++ [cr]
       ∧ In (cfn.DepRole role) (cfn.dependencies cr)
       ∧ In (SecretOp, RoleOp) (dependency_edges cr)
       ∧ (∀ key, secretEncryptionKey p = Some key →
            let grant := key_grant_policy env id role key p in
            let pattern := secret_pattern (stack env) (secretName p) in
            cfn.dependencies cr = [cfn.DepRole role; cfn.DepPolicy grant]
            ∧ In (SecretOp, KeyGrantOp) (dependency_edges cr)
            ∧ policies w' = policies w ++ [grant]
            ∧ iam.roles grant = [role]
            ∧ iam.statements grant =
                [key_grant_statement (secretName p) (kms.keyArn key)
                   (secretsmanager_endpoint (stack env)) pattern]
            ∧ handler_policy w' = handler_policy w ++ [lifecycle_statement pattern]
            ∧ is_kms_statement (lifecycle_statement pattern) = false)
       ∧ (secretEncryptionKey p = None →
            dependency_edges cr = [(SecretOp, RoleOp)] ∧ policies w' = policies w)
       ∧ ¬ (In (RoleOp, KeyGrantOp) (dependency_edges cr)
            ∧ In (KeyGrantOp, RoleOp) (dependency_edges cr)))
  ∧ (handlerRole env = None →
     (secretEncryptionKey p = None →
        ∃ w' this cr,
          constructor env id r w = (w', Ok this)
          ∧ custom_resources w' = custom_resources w ++ [cr]
          ∧ cfn.dependencies cr = []
          ∧ dependency_edges cr = []
          ∧ policies w' = policies w)
     ∧ (is_Some (secretEncryptionKey p) →
        (∃ e, (constructor env id r w).2 = Throw e)
        ∧ custom_resources (constructor env id r w).1 = custom_resources w
        ∧ policies (constructor env id r w).1 = policies w)).
Proof.
  intros Hp. split.
  - intros role Hr.
    assert (Hc : completes env p) by (right; rewrite Hr; eauto).
    exists (world_after env id r p w), (constructed env id p), (private_key_resource env id p).
    split; [exact (constructor_completes env id r w p Hp Hc)|].
    split; [reflexivity|].
    unfold dependency_edges, world_after, private_key_resource, declared_dependencies.
    cbn [cfn.dependencies policies handler_policy]. rewrite Hr.
    destruct (secretEncryptionKey p) as [key|]; cbn.
    + split_and!; auto.
      * intros key' [= <-]. cbn. split_and!; auto.
      * discriminate.
      * intros [[H|[H|[]]] _]; discriminate.
    + split_and!; auto.
      * discriminate.
      * intros _. split; [reflexivity|apply app_nil_r].
      * intros [[H|[]] _]; discriminate.
  - intros Hr. split.
    + intros Hk.
      exists (constructor env id r w).1, (constructed env id p),
        (private_key_resource env id p).
      rewrite (constructor_without_key env id r w p Hp Hk).
      cbn [fst custom_resources policies].
      unfold dependency_edges, private_key_resource, declared_dependencies.
      cbn [cfn.dependencies]. rewrite Hr. split_and!; reflexivity.
    + intros [key Hk].
      rewrite (constructor_with_key_without_role env id r w p key Hp Hk Hr).
      cbn [fst snd custom_resources policies]. split_and!; eauto.
Qed.

(** C1, witness: a keyed secret in the sample stack, and the same spec
    under a handler without a role. *)
Lemma dependency_edges_of_construction_witness :
  props_heap (with_props 0 keyed_props empty_world) !! 0%nat = Some keyed_props
  ∧ (∃ w' this cr,
       constructor sample_env "Key" 0 (with_props 0 keyed_props empty_world) = (w', Ok this)
       ∧ custom_resources w' = [cr]
       ∧ In (SecretOp, RoleOp) (dependency_edges cr)
       ∧ In (SecretOp, KeyGrantOp) (dependency_edges cr))
  ∧ custom_resources
      (constructor roleless_env "Key" 0 (with_props 0 keyed_props empty_world)).1 = [].
Proof.
  assert (H1 : props_heap (with_props 0 keyed_props empty_world) !! 0%nat = Some keyed_props)
    by reflexivity.
  split; [exact H1|]. split.
  - destruct (proj1 (dependency_edges_of_construction sample_env "Key" 0%nat
                       (with_props 0 keyed_props empty_world) keyed_props H1)
                sample_role eq_refl)
      as (w' & this & cr & Hrun & Hcr & _ & Hrole & Hkey & _).
    exists w', this, cr. split; [exact Hrun|]. split; [exact Hcr|]. split; [exact Hrole|].
    destruct (Hkey sample_key eq_refl) as (_ & Hgrant & _). exact Hgrant.
  - destruct (proj2 (dependency_edges_of_construction roleless_env "Key" 0%nat
                       (with_props 0 keyed_props empty_world) keyed_props H1) eq_refl)
      as [_ Hthrow].
    destruct (Hthrow (ex_intro _ sample_key eq_refl)) as (_ & Hcr & _). exact Hcr.
Defined.

(** C1, as stated, fails: a handler without a role and a spec without a key
    construct successfully, and the custom resource has no dependency at
    all, hence no edge from the secret operation to a role. *)
Lemma roleless_handler_has_no_role_edge :
  let run := constructor roleless_env "Key" 0 (with_props 0 plain_props empty_world) in
  run.2 = Ok (constructed roleless_env "Key" plain_props)
  ∧ dependency_edges <$> custom_resources run.1 = [[]]
  ∧ ¬ (∀ cr, In cr (custom_resources run.1) → In (SecretOp, RoleOp) (dependency_edges cr)).
Proof.
  cbv zeta. split; [reflexivity|]. split; [reflexivity|].
  intros H.
  specialize (H (private_key_resource roleless_env "Key" plain_props)).
  apply H. left. reflexivity.
Qed.

(** ** Validation *)

(** C5, as the code has it.  The constructor validates neither the key size
    nor the secret name: whatever their values, construction completes
    (unless an encryption key meets a handler without a role) and the
    provisioning request it creates carries both values unchanged. *)
Theorem constructor_forwards_spec_unvalidated env id r w p :
  props_heap w !! r = Some p →
  completes env p →
  ∃ w' this request,
    constructor env id r w = (w', Ok this)
    ∧ last_request w' = Some request
    ∧ cfn.keySize request = keySize p
    ∧ cfn.secretName request = secretName p.
Proof.
  intros Hp Hc.
  exists (world_after env id r p w), (constructed env id p), (provisioning_request env p).
  split; [exact (constructor_completes env id r w p Hp Hc)|].
  split; [|split; reflexivity].
  unfold last_request, world_after. cbn [custom_resources].
  rewrite last_snoc. reflexivity.
Qed.

(** C5, witness: the spec with key size [-1] and an empty name. *)
Lemma constructor_forwards_spec_unvalidated_witness :
  props_heap (with_props 0 invalid_props empty_world) !! 0%nat = Some invalid_props
  ∧ completes sample_env invalid_props
  ∧ ∃ w' this request,
      constructor sample_env "Key" 0 (with_props 0 invalid_props empty_world) = (w', Ok this)
      ∧ last_request w' = Some request
      ∧ cfn.keySize request = -1
      ∧ cfn.secretName request = "".
Proof.
  assert (H1 : props_heap (with_props 0 invalid_props empty_world) !! 0%nat
               = Some invalid_props) by reflexivity.
  assert (H2 : completes sample_env invalid_props) by (left; reflexivity).
  split; [exact H1|]. split; [exact H2|].
  exact (constructor_forwards_spec_unvalidated sample_env "Key" 0%nat
           (with_props 0 invalid_props empty_world) invalid_props H1 H2).
Defined.

(** C5, as stated, fails: a spec with a negative key size and an empty
    secret name is not rejected; the constructor returns normally and the
    request with exactly these values is created. *)
Lemma invalid_spec_is_dispatched :
  let run := constructor sample_env "Key" 0 (with_props 0 invalid_props empty_world) in
  keySize invalid_props < 0
  ∧ secretName invalid_props = ""
  ∧ run.2 = Ok (constructed sample_env "Key" invalid_props)
  ∧ last_request run.1 =
      Some {| cfn.resourceVersion := "3f9a/srv/delivlib/custom-resource-handlers/bin/private-key";
              cfn.description := None;
              cfn.keySize := -1;
              cfn.secretName := "";
              cfn.kmsKeyId := None |}.
Proof. cbv zeta. split_and!; reflexivity. Qed.

(** ** The request payload *)

(** C8.  The [resourceVersion] of the provisioning request is the content
    hash of the handler's code directory.  Of two constructions of one spec
    in surroundings whose hashes differ, the requests differ; when the
    hashes agree, the requests are identical. *)
Theorem resource_version_is_code_hash env1 env2 id r w p :
  props_heap w !! r = Some p →
  completes env1 p →
  completes env2 p →
  let h1 := hashFileOrDirectory env1 (code_location env1) in
  let h2 := hashFileOrDirectory env2 (code_location env2) in
  ∃ q1 q2,
    last_request (constructor env1 id r w).1 = Some q1
    ∧ last_request (constructor env2 id r w).1 = Some q2
    ∧ cfn.resourceVersion q1 = h1
    ∧ cfn.resourceVersion q2 = h2
    ∧ (h1 ≠ h2 → q1 ≠ q2)
    ∧ (h1 = h2 → q1 = q2).
Proof.
  intros Hp Hc1 Hc2 h1 h2.
  exists (provisioning_request env1 p), (provisioning_request env2 p).
  rewrite (constructor_completes env1 id r w p Hp Hc1),
          (constructor_completes env2 id r w p Hp Hc2).
  unfold last_request, world_after. cbn [fst custom_resources].
  rewrite !last_snoc. split_and!; try reflexivity.
  - intros Hne Heq. apply Hne. exact (f_equal cfn.resourceVersion Heq).
  - intros Heq. unfold provisioning_request. fold h1 h2. rewrite Heq. reflexivity.
Qed.

(** C8, witness: the same spec before and after the handler was rebuilt. *)
Lemma resource_version_is_code_hash_witness :
  props_heap (with_props 0 keyed_props empty_world) !! 0%nat = Some keyed_props
  ∧ completes sample_env keyed_props
  ∧ completes rebuilt_env keyed_props
  ∧ ∃ q1 q2,
      last_request (constructor sample_env "Key" 0 (with_props 0 keyed_props empty_world)).1
        = Some q1
      ∧ last_request (constructor rebuilt_env "Key" 0 (with_props 0 keyed_props empty_world)).1
        = Some q2
      ∧ cfn.resourceVersion q1 = "3f9a/srv/delivlib/custom-resource-handlers/bin/private-key"
      ∧ cfn.resourceVersion q2 = "c07e/srv/delivlib/custom-resource-handlers/bin/private-key"
      ∧ q1 ≠ q2.
Proof.
  assert (H1 : props_heap (with_props 0 keyed_props empty_world) !! 0%nat = Some keyed_props)
    by reflexivity.
  assert (H2 : completes sample_env keyed_props) by (right; eexists; reflexivity).
  assert (H3 : completes rebuilt_env keyed_props) by (right; eexists; reflexivity).
  split; [exact H1|]. split; [exact H2|]. split; [exact H3|].
  destruct (resource_version_is_code_hash sample_env rebuilt_env "Key" 0%nat
              (with_props 0 keyed_props empty_world) keyed_props H1 H2 H3)
    as (q1 & q2 & Hq1 & Hq2 & Hv1 & Hv2 & Hne & _).
  exists q1, q2. split_and!; try assumption.
  apply Hne. discriminate.
Defined.

(** ** The props object *)

(** C9.  When the caller leaves [deletionPolicy] out, the constructor writes
    [Retain] into the caller's own props object, which therefore differs
    from what was passed in, and the custom resource it creates gets that
    same value as its deletion policy. *)
Theorem default_deletion_policy_written_back env id r w p :
  props_heap w !! r = Some p →
  deletionPolicy p = None →
  let w' := (constructor env id r w).1 in
  ∃ p',
    props_heap w' !! r = Some p'
    ∧ deletionPolicy p' = Some cdk.Retain
    ∧ p' ≠ p
    ∧ (completes env p →
       ∃ this cr,
         (constructor env id r w).2 = Ok this
         ∧ last (custom_resources w') = Some cr
         ∧ cfn.deletionPolicy cr = deletionPolicy p').
Proof.
  intros Hp Hd w'. exists (defaulted p).
  subst w'. rewrite (constructor_props_heap env id r w p Hp), lookup_insert_eq.
  unfold defaulted. rewrite Hd. cbn.
  split_and!; try reflexivity.
  - intros Heq. apply (f_equal deletionPolicy) in Heq. cbn in Heq. congruence.
  - intros Hc. rewrite (constructor_completes env id r w p Hp Hc).
    exists (constructed env id p), (private_key_resource env id p).
    cbn [fst snd world_after custom_resources]. rewrite last_snoc.
    split_and!; try reflexivity. cbn. rewrite Hd. reflexivity.
Qed.

(** C9, witness: the props of the [db-root] scenario carry no deletion
    policy. *)
Lemma default_deletion_policy_written_back_witness :
  props_heap (with_props 0 plain_props empty_world) !! 0%nat = Some plain_props
  ∧ deletionPolicy plain_props = None
  ∧ ∃ p',
      props_heap (constructor sample_env "Key" 0 (with_props 0 plain_props empty_world)).1
        !! 0%nat = Some p'
      ∧ deletionPolicy p' = Some cdk.Retain
      ∧ p' ≠ plain_props.
Proof.
  assert (H1 : props_heap (with_props 0 plain_props empty_world) !! 0%nat = Some plain_props)
    by reflexivity.
  assert (H2 : deletionPolicy plain_props = None) by reflexivity.
  split; [exact H1|]. split; [exact H2|].
  destruct (default_deletion_policy_written_back sample_env "Key" 0%nat
              (with_props 0 plain_props empty_world) plain_props H1 H2)
    as (p' & Hl & Hd & Hne & _).
  exists p'. split_and!; assumption.
Defined.

(** ** Policies in the store *)

Lemma push_statement_lookup k s (m : gmap string (list iam.PolicyStatement)) k' :
  default [] (push_statement k s m !! k') =
    default [] (m !! k') ++ (if decide (k = k') then [s] else []).
Proof.
  unfold push_statement. rewrite lookup_insert.
  destruct (decide (k = k')) as [->|]; cbn; [reflexivity|].
  rewrite app_nil_r. reflexivity.
Qed.

Lemma policy_allows_repeat req (l a : list iam.PolicyStatement) :
  policy_allows req ((l ++ a) ++ a) = policy_allows req (l ++ a).
Proof.
  unfold policy_allows. rewrite !existsb_app, <- !orb_assoc, !orb_diag. reflexivity.
Qed.

(** ** What [grantGetSecretValue] does *)

Lemma grant_returns this grantee w :
  (grantGetSecretValue this grantee w).2 = Ok tt.
Proof. run_M. destruct (masterKey this); reflexivity. Qed.

Lemma grant_principal_policy this grantee w g :
  principal_policy (grantGetSecretValue this grantee w).1 g =
    principal_policy w g ++ granted_to_principal this grantee g.
Proof.
  unfold principal_policy, granted_to_principal. run_M.
  destruct (masterKey this) as [key|]; cbn; rewrite !push_statement_lookup;
    destruct (decide (iam.principalId grantee = iam.principalId g)); cbn;
    rewrite <- ?app_assoc, ?app_nil_r; reflexivity.
Qed.

Lemma grant_key_policy this grantee w k :
  key_policy (grantGetSecretValue this grantee w).1 k =
    key_policy w k ++ granted_on_key this grantee k.
Proof.
  unfold key_policy, granted_on_key. run_M.
  destruct (masterKey this) as [key|]; cbn; rewrite ?push_statement_lookup, ?app_nil_r;
    reflexivity.
Qed.

Lemma grant_frame this grantee w :
  let w' := (grantGetSecretValue this grantee w).1 in
  handler_policy w' = handler_policy w
  ∧ policies w' = policies w
  ∧ custom_resources w' = custom_resources w
  ∧ props_heap w' = props_heap w.
Proof. run_M. destruct (masterKey this); cbn; split_and!; reflexivity. Qed.

(** C3.  On a secret with an encryption key, [grantGetSecretValue] adds
    exactly three statements for any grantee: to the grantee,
    [secretsmanager:GetSecretValue] on the secret's ARN; to the key's
    resource policy, [kms:Decrypt] for the grantee's principal under
    [StringEquals kms:ViaService] for the region and [ArnLike] of the
    encryption-context secret against the ARN pattern; to the grantee,
    [kms:Decrypt] on the key's ARN under the same [kms:ViaService] value and
    [ArnEquals] of the encryption-context secret against the secret's ARN.
    Nothing else in the world changes. *)
Theorem grant_with_key_adds_three_statements this grantee w key :
  masterKey this = Some key →
  let endpoint := secretsmanager_endpoint (this_stack this) in
  let on_secret := read_secret_statement (secretArn this) in
  let on_key := key_resource_read_statement (iam.principal grantee) endpoint (secretArnLike this) in
  let on_principal := key_principal_read_statement (kms.keyArn key) endpoint (secretArn this) in
  ∃ w',
    grantGetSecretValue this grantee w = (w', Ok tt)
    ∧ principal_policy w' grantee = principal_policy w grantee ++ [on_secret; on_principal]
    ∧ key_policy w' key = key_policy w key ++ [on_key]
    ∧ (∀ g, iam.principalId g ≠ iam.principalId grantee →
            principal_policy w' g = principal_policy w g)
    ∧ (∀ k, kms.keyArn k ≠ kms.keyArn key → key_policy w' k = key_policy w k)
    ∧ handler_policy w' = handler_policy w
    ∧ policies w' = policies w
    ∧ custom_resources w' = custom_resources w.
Proof.
  intros Hk endpoint on_secret on_key on_principal.
  exists (grantGetSecretValue this grantee w).1.
  destruct (grant_frame this grantee w) as (Hh & Hp & Hc & _).
  split_and!; try assumption.
  - rewrite <- (grant_returns this grantee w). apply surjective_pairing.
  - rewrite grant_principal_policy. unfold granted_to_principal.
    rewrite Hk, decide_True by reflexivity. reflexivity.
  - rewrite grant_key_policy. unfold granted_on_key.
    rewrite Hk, decide_True by reflexivity. reflexivity.
  - intros g Hg. rewrite grant_principal_policy. unfold granted_to_principal.
    rewrite decide_False by congruence. apply app_nil_r.
  - intros k Hne. rewrite grant_key_policy. unfold granted_on_key.
    rewrite Hk, decide_False by congruence. apply app_nil_r.
Qed.

(** C3, witness: a reader is granted access to the keyed sample secret. *)
Lemma grant_with_key_adds_three_statements_witness :
  masterKey keyed_secret = Some sample_key
  ∧ ∃ w',
      grantGetSecretValue keyed_secret sample_grantee empty_world = (w', Ok tt)
      ∧ length (principal_policy w' sample_grantee) = 2%nat
      ∧ length (key_policy w' sample_key) = 1%nat.
Proof.
  assert (H1 : masterKey keyed_secret = Some sample_key) by reflexivity.
  split; [exact H1|].
  destruct (grant_with_key_adds_three_statements keyed_secret sample_grantee
              empty_world sample_key H1) as (w' & Hrun & Hp & Hk & _).
  exists w'. split; [exact Hrun|]. rewrite Hp, Hk. split; reflexivity.
Defined.

(** C10.  On a secret without an encryption key, [grantGetSecretValue] adds
    exactly one statement for any grantee, [secretsmanager:GetSecretValue]
    on the secret's ARN, attached to the grantee; it is no KMS statement,
    and no policy of a key, of the handler, of another principal or of a
    policy object changes. *)
Theorem grant_without_key_adds_one_statement this grantee w :
  masterKey this = None →
  let on_secret := read_secret_statement (secretArn this) in
  ∃ w',
    grantGetSecretValue this grantee w = (w', Ok tt)
    ∧ principal_policy w' grantee = principal_policy w grantee ++ [on_secret]
    ∧ iam.actions on_secret = ["secretsmanager:GetSecretValue"]
    ∧ iam.resources on_secret = [secretArn this]
    ∧ is_kms_statement on_secret = false
    ∧ (∀ g, iam.principalId g ≠ iam.principalId grantee →
            principal_policy w' g = principal_policy w g)
    ∧ key_policies w' = key_policies w
    ∧ handler_policy w' = handler_policy w
    ∧ policies w' = policies w.
Proof.
  intros Hk on_secret.
  exists (grantGetSecretValue this grantee w).1.
  destruct (grant_frame this grantee w) as (Hh & Hp & Hc & _).
  split_and!; try assumption; try reflexivity.
  - rewrite <- (grant_returns this grantee w). apply surjective_pairing.
  - rewrite grant_principal_policy. unfold granted_to_principal.
    rewrite Hk, decide_True by reflexivity. reflexivity.
  - intros g Hg. rewrite grant_principal_policy. unfold granted_to_principal.
    rewrite decide_False by congruence. apply app_nil_r.
  - run_M. rewrite Hk. reflexivity.
Qed.

(** C10, witness: a reader is granted access to the sample secret that has
    no key. *)
Lemma grant_without_key_adds_one_statement_witness :
  masterKey plain_secret = None
  ∧ ∃ w',
      grantGetSecretValue plain_secret sample_grantee empty_world = (w', Ok tt)
      ∧ principal_policy w' sample_grantee =
          [read_secret_statement "${Token[Key/Resource.SecretArn]}"]
      ∧ key_policies w' = ∅.
Proof.
  assert (H1 : masterKey plain_secret = None) by reflexivity.
  split; [exact H1|].
  destruct (grant_without_key_adds_one_statement plain_secret sample_grantee empty_world H1)
    as (w' & Hrun & Hp & _ & _ & _ & _ & Hk & _).
  exists w'. split; [exact Hrun|]. split; [rewrite Hp; reflexivity|exact Hk].
Defined.

(** C4.  Granting twice to the same principal: both calls return, the
    second call appends to every policy the very statements the first call
    appended, and every policy answers every request after the second call
    as it did after the first. *)
Theorem grant_twice_same_permissions this grantee w :
  let w1 := (grantGetSecretValue this grantee w).1 in
  let w2 := (grantGetSecretValue this grantee w1).1 in
  (grantGetSecretValue this grantee w).2 = Ok tt
  ∧ (grantGetSecretValue this grantee w1).2 = Ok tt
  ∧ (∀ g, ∃ added,
       principal_policy w1 g = principal_policy w g ++ added
       ∧ principal_policy w2 g = principal_policy w1 g ++ added)
  ∧ (∀ k, ∃ added,
       key_policy w1 k = key_policy w k ++ added
       ∧ key_policy w2 k = key_policy w1 k ++ added)
  ∧ same_permissions w1 w2.
Proof.
  intros w1 w2. subst w1 w2.
  split; [apply grant_returns|]. split; [apply grant_returns|].
  split; [|split].
  - intros g. exists (granted_to_principal this grantee g).
    split; apply grant_principal_policy.
  - intros k. exists (granted_on_key this grantee k).
    split; apply grant_key_policy.
  - intros req. split_and!.
    + intros g. rewrite !grant_principal_policy.
      symmetry. apply policy_allows_repeat.
    + intros k. rewrite !grant_key_policy.
      symmetry. apply policy_allows_repeat.
    + destruct (grant_frame this grantee (grantGetSecretValue this grantee w).1) as (-> & _).
      reflexivity.
Qed.

(** ** Condition-scoped key use *)

Lemma dual_conditions_hold ctx s endpoint op vals :
  iam.conditions s =
    [(iam.StringEquals, [("kms:ViaService", iam.One endpoint)]);
     (op, [("kms:EncryptionContext:SecretARN", vals)])] →
  conditions_hold ctx s = true ↔
    ctx !! "kms:ViaService" = Some endpoint
    ∧ ∃ arn, ctx !! "kms:EncryptionContext:SecretARN" = Some arn
        ∧ existsb (λ listed, operator_test op listed arn) (condition_values vals) = true.
Proof.
  intros Hs. unfold conditions_hold. rewrite Hs.
  cbn [forallb fst snd]. unfold key_holds. cbn [fst snd condition_values existsb].
  destruct (ctx !! "kms:ViaService") as [via|];
    destruct (ctx !! "kms:EncryptionContext:SecretARN") as [arn|];
    cbn [operator_test]; rewrite ?andb_true_r, ?orb_false_r, ?andb_false_r, ?andb_true_iff.
  1: { rewrite String.eqb_eq. split.
       - intros [-> Hm]. split; [reflexivity|]. exists arn. split; [reflexivity|exact Hm].
       - intros [[= ->] (arn' & [= <-] & Hm)]. split; [reflexivity|exact Hm]. }
  all: split; intros H;
    [ first [discriminate H | destruct H; discriminate]
    | destruct H as [H1 (arn' & H2 & _)]; discriminate ].
Qed.

(** C2.  When an encryption key is supplied (and the handler has the role
    the statements are built for), the constructor builds two key-use
    statements for the handler's execution identity: one on the key's
    resource policy, naming the role as principal, and one in the separate
    policy attached to the role.  Each allows exactly [kms:Decrypt] and
    [kms:GenerateDataKey], and its conditions hold only if
    [kms:ViaService] equals the Secrets Manager endpoint of the stack's
    region and [kms:EncryptionContext:SecretARN] matches the allow-list made
    of the resolved ARN pattern and ["RequestToValidateKeyAccess"].  For the
    statement attached to the role these two conditions are also sufficient;
    the statement on the key lists the ARN pattern alone. *)
Theorem key_use_statements_are_condition_scoped env id r w p key role :
  props_heap w !! r = Some p →
  secretEncryptionKey p = Some key →
  handlerRole env = Some role →
  let endpoint := secretsmanager_endpoint (stack env) in
  let pattern := secret_pattern (stack env) (secretName p) in
  let allow_list := [pattern; "RequestToValidateKeyAccess"] in
  let dual ctx (listed : list string) :=
    ctx !! "kms:ViaService" = Some endpoint
    ∧ ∃ arn, ctx !! "kms:EncryptionContext:SecretARN" = Some arn
        ∧ existsb (λ l, wild_match l arn) listed = true in
  ∃ w' this on_key on_role grant,
    constructor env id r w = (w', Ok this)
    ∧ secretArnLike this = pattern
    ∧ key_policy w' key = key_policy w key ++ [on_key]
    ∧ iam.principals on_key = [iam.ArnPrincipal (iam.roleArn role)]
    ∧ policies w' = policies w ++ [grant]
    ∧ iam.roles grant = [role]
    ∧ iam.statements grant = [on_role]
    ∧ iam.resources on_role = [kms.keyArn key]
    ∧ (∀ s, s = on_key ∨ s = on_role →
         iam.effect s = iam.Allow
         ∧ iam.actions s = ["kms:Decrypt"; "kms:GenerateDataKey"]
         ∧ ∀ ctx, conditions_hold ctx s = true → dual ctx allow_list)
    ∧ (∀ ctx, conditions_hold ctx on_role = true ↔ dual ctx allow_list)
    ∧ (∀ ctx, conditions_hold ctx on_key = true ↔ dual ctx [pattern]).
Proof.
  intros Hp Hk Hr endpoint pattern allow_list dual.
  exists (world_after env id r p w), (constructed env id p),
    (key_resource_statement (handlerName env) (iam.roleArn role) endpoint pattern),
    (key_grant_statement (secretName p) (kms.keyArn key) endpoint pattern),
    (key_grant_policy env id role key p).
  assert (Hc : completes env p) by (right; rewrite Hr; eauto).
  assert (Hrole : ∀ ctx,
    conditions_hold ctx (key_grant_statement (secretName p) (kms.keyArn key) endpoint pattern)
      = true ↔ dual ctx allow_list).
  { intros ctx. apply (dual_conditions_hold ctx _ endpoint iam.StringLike (iam.Many allow_list)).
    reflexivity. }
  assert (Hkey : ∀ ctx,
    conditions_hold ctx
      (key_resource_statement (handlerName env) (iam.roleArn role) endpoint pattern)
      = true ↔ dual ctx [pattern]).
  { intros ctx. apply (dual_conditions_hold ctx _ endpoint iam.ArnLike (iam.One pattern)).
    reflexivity. }
  split; [exact (constructor_completes env id r w p Hp Hc)|].
  split; [reflexivity|].
  split.
  { unfold key_policy, world_after. cbn [key_policies]. rewrite Hk, Hr.
    rewrite push_statement_lookup, decide_True by reflexivity. reflexivity. }
  split; [reflexivity|].
  split; [unfold world_after; cbn [policies]; rewrite Hk, Hr; reflexivity|].
  split; [reflexivity|]. split; [reflexivity|]. split; [reflexivity|].
  split; [|split; assumption].
  intros s [->| ->]; (split; [reflexivity|]); (split; [reflexivity|]); intros ctx Hh.
  - apply Hkey in Hh. destruct Hh as [Hvia (arn & Harn & Hm)].
    split; [exact Hvia|]. exists arn. split; [exact Harn|].
    subst allow_list. cbn [existsb] in Hm |- *.
    rewrite orb_false_r in Hm. rewrite Hm. reflexivity.
  - apply Hrole. exact Hh.
Qed.

(** C2, witness: the keyed sample secret; the statement attached to the
    role holds for the sentinel under the regional endpoint and fails under
    another service. *)
Lemma key_use_statements_are_condition_scoped_witness :
  props_heap (with_props 0 keyed_props empty_world) !! 0%nat = Some keyed_props
  ∧ secretEncryptionKey keyed_props = Some sample_key
  ∧ handlerRole sample_env = Some sample_role
  ∧ ∃ w' this on_role grant,
      constructor sample_env "Key" 0 (with_props 0 keyed_props empty_world) = (w', Ok this)
      ∧ policies w' = [grant]
      ∧ iam.statements grant = [on_role]
      ∧ iam.actions on_role = ["kms:Decrypt"; "kms:GenerateDataKey"]
      ∧ conditions_hold
          {[ "kms:ViaService" := "secretsmanager.us-east-1.amazonaws.com";
             "kms:EncryptionContext:SecretARN" := "RequestToValidateKeyAccess" ]} on_role = true
      ∧ conditions_hold
          {[ "kms:ViaService" := "s3.us-east-1.amazonaws.com";
             "kms:EncryptionContext:SecretARN" := "RequestToValidateKeyAccess" ]} on_role
        ≠ true.
Proof.
  assert (H1 : props_heap (with_props 0 keyed_props empty_world) !! 0%nat = Some keyed_props)
    by reflexivity.
  assert (H2 : secretEncryptionKey keyed_props = Some sample_key) by reflexivity.
  assert (H3 : handlerRole sample_env = Some sample_role) by reflexivity.
  split; [exact H1|]. split; [exact H2|]. split; [exact H3|].
  destruct (key_use_statements_are_condition_scoped sample_env "Key" 0%nat
              (with_props 0 keyed_props empty_world) keyed_props sample_key sample_role
              H1 H2 H3)
    as (w' & this & on_key & on_role & grant & Hrun & _ & _ & _ & Hpol & _ & Hst & _
        & Hall & Hiff & _).
  exists w', this, on_role, grant.
  split; [exact Hrun|]. split; [exact Hpol|]. split; [exact Hst|].
  split; [exact (proj1 (proj2 (Hall on_role (or_intror eq_refl))))|].
  split.
  - apply Hiff. split; [reflexivity|].
    exists "RequestToValidateKeyAccess". split; reflexivity.
  - intros Hh. apply Hiff in Hh. destruct Hh as [Hvia _]. discriminate Hvia.
Defined.

(** ** Matching the ARN pattern *)

Lemma wildcard_free_cons c s :
  wildcard_free (String c s) = true →
  Ascii.eqb c "*" = false ∧ Ascii.eqb c "?" = false ∧ wildcard_free s = true.
Proof.
  cbn. unfold is_wildcard. intros H.
  apply andb_true_iff in H as [Hc Hs]. apply negb_true_iff, orb_false_iff in Hc.
  destruct Hc. auto.
Qed.

Lemma wild_match_literal c p s :
  Ascii.eqb c "*" = false →
  wild_match (String c p) s =
    match s with
    | EmptyString => false
    | String d s' => (Ascii.eqb c "?" || Ascii.eqb c d) && wild_match p s'
    end.
Proof. intros H. destruct s; cbn [wild_match]; rewrite H; reflexivity. Qed.

(** A pattern that starts with literal characters matches only strings
    that start with the same characters. *)
Lemma wild_match_literal_prefix a q s :
  wildcard_free a = true →
  wild_match (a +:+ q) s = true →
  ∃ t, s = a +:+ t ∧ wild_match q t = true.
Proof.
  revert s. induction a as [|c a IH]; intros s Hfree Hm.
  - exists s. split; [reflexivity|exact Hm].
  - apply wildcard_free_cons in Hfree as (Hstar & Hany & Hfree).
    change (String c a +:+ q) with (String c (a +:+ q)) in Hm.
    rewrite (wild_match_literal _ _ _ Hstar), Hany in Hm.
    destruct s as [|d s]; [discriminate Hm|].
    apply andb_true_iff in Hm as [Hcd Hm]. rewrite orb_false_l in Hcd.
    apply Ascii.eqb_eq in Hcd as <-.
    destruct (IH s Hfree Hm) as (t & -> & Ht).
    exists t. split; [reflexivity|exact Ht].
Qed.

Lemma wild_match_star_here p s :
  wild_match p s = true → wild_match (String "*" p) s = true.
Proof. intros H. destruct s; cbn; rewrite H; reflexivity. Qed.

Lemma wild_match_star_skip p d s :
  wild_match (String "*" p) s = true → wild_match (String "*" p) (String d s) = true.
Proof. intros H. cbn in H |- *. rewrite H. apply orb_true_r. Qed.

(** Any prefix, wildcards included, matches itself. *)
Lemma wild_match_same_prefix a q t :
  wild_match q t = true → wild_match (a +:+ q) (a +:+ t) = true.
Proof.
  intros Hm. induction a as [|c a IH]; [exact Hm|].
  destruct (Ascii.eqb c "*") eqn:Hstar.
  - apply Ascii.eqb_eq in Hstar as ->.
    apply wild_match_star_skip, wild_match_star_here, IH.
  - change (wild_match (String c (a +:+ q)) (String c (a +:+ t)) = true).
    rewrite (wild_match_literal _ _ _ Hstar).
    rewrite Ascii.eqb_refl, orb_true_r. exact IH.
Qed.

Lemma wild_match_six t :
  wild_match "??????" t = true ↔ String.length t = 6%nat.
Proof.
  split; intros H.
  - do 6 (destruct t as [|? t]; [discriminate H|]).
    destruct t; [reflexivity|discriminate H].
  - do 6 (destruct t as [|? t]; [discriminate H|]).
    destruct t; [reflexivity|discriminate H].
Qed.

Lemma secret_pattern_complete st name arn :
  secret_arn_shape st name arn → wild_match (secret_pattern st name) arn = true.
Proof.
  intros (suffix & Hlen & ->).
  unfold secret_pattern, cdk.formatArn.
  cbn [cdk.service cdk.resource cdk.sep cdk.resourceName].
  do 12 apply wild_match_same_prefix.
  apply (wild_match_same_prefix "-" "??????" suffix), wild_match_six, Hlen.
Qed.

Lemma secret_pattern_sound st name arn :
  literal_context st name = true →
  wild_match (secret_pattern st name) arn = true →
  secret_arn_shape st name arn.
Proof.
  unfold literal_context. rewrite !andb_true_iff. intros [[[Hp Hr] Ha] Hn].
  unfold secret_pattern, secret_arn_shape, cdk.formatArn.
  cbn [cdk.service cdk.resource cdk.sep cdk.resourceName].
  intros Hm.
  do 12 (apply wild_match_literal_prefix in Hm as (? & -> & Hm);
         [|first [assumption|reflexivity]]).
  apply (wild_match_literal_prefix "-" "??????") in Hm as (suffix & -> & Hm); [|reflexivity].
  exists suffix. split; [apply wild_match_six, Hm|reflexivity].
Qed.

(** C7, as the code has it.  For every secret name, the pattern the
    constructor resolves is the stack's ARN for service [secretsmanager],
    resource [secret], separator [":"] and resource name
    [<secretName>-??????]; it matches every ARN of the stack of the form
    [secret:<secretName>-XXXXXX] with six characters after the dash; and
    when the secret name and the stack's partition, region and account
    carry no ["*"] or ["?"] of their own, it matches no other string. *)
Theorem secret_pattern_matches_six_suffix env id r w p :
  props_heap w !! r = Some p →
  completes env p →
  ∃ w' this,
    constructor env id r w = (w', Ok this)
    ∧ secretArnLike this =
        cdk.formatArn (stack env)
          {| cdk.service := "secretsmanager"; cdk.resource := "secret";
             cdk.sep := ":"; cdk.resourceName := secretName p +:+ "-??????" |}
    ∧ (∀ arn, secret_arn_shape (stack env) (secretName p) arn →
              wild_match (secretArnLike this) arn = true)
    ∧ (literal_context (stack env) (secretName p) = true →
       ∀ arn, wild_match (secretArnLike this) arn = true →
              secret_arn_shape (stack env) (secretName p) arn).
Proof.
  intros Hp Hc.
  exists (world_after env id r p w), (constructed env id p).
  split; [exact (constructor_completes env id r w p Hp Hc)|].
  split; [reflexivity|]. split.
  - intros arn. apply secret_pattern_complete.
  - intros Hlit arn. apply secret_pattern_sound, Hlit.
Qed.

(** C7, witness: the pattern of [db-root] in the sample stack matches an
    ARN with six trailing characters, and whatever it matches has that
    form. *)
Lemma secret_pattern_matches_six_suffix_witness :
  props_heap (with_props 0 plain_props empty_world) !! 0%nat = Some plain_props
  ∧ completes sample_env plain_props
  ∧ literal_context sample_stack "db-root" = true
  ∧ ∃ w' this,
      constructor sample_env "Key" 0 (with_props 0 plain_props empty_world) = (w', Ok this)
      ∧ secretArnLike this =
          "arn:aws:secretsmanager:us-east-1:123456789012:secret:db-root-??????"
      ∧ wild_match (secretArnLike this)
          "arn:aws:secretsmanager:us-east-1:123456789012:secret:db-root-a1B2c3" = true
      ∧ (∀ arn, wild_match (secretArnLike this) arn = true →
                secret_arn_shape sample_stack "db-root" arn).
Proof.
  assert (H1 : props_heap (with_props 0 plain_props empty_world) !! 0%nat = Some plain_props)
    by reflexivity.
  assert (H2 : completes sample_env plain_props) by (left; reflexivity).
  assert (H3 : literal_context sample_stack "db-root" = true) by reflexivity.
  split; [exact H1|]. split; [exact H2|]. split; [exact H3|].
  destruct (secret_pattern_matches_six_suffix sample_env "Key" 0%nat
              (with_props 0 plain_props empty_world) plain_props H1 H2)
    as (w' & this & Hrun & Hpat & Hall & Honly).
  exists w', this. split; [exact Hrun|]. split; [exact Hpat|]. split.
  - apply Hall. exists "a1B2c3". split; reflexivity.
  - apply (Honly H3).
Defined.

(** C7, as stated, fails: the non-empty secret name ["?"] resolves to a
    pattern that matches an ARN whose secret name is ["x"], which is not of
    the form [secret:?-XXXXXX]. *)
Lemma wildcard_name_matches_foreign_arn :
  let run := constructor sample_env "Key" 0 (with_props 0 wildcard_props empty_world) in
  let arn := "arn:aws:secretsmanager:us-east-1:123456789012:secret:x-abcdef" in
  secretName wildcard_props ≠ ""
  ∧ ∃ this,
      run.2 = Ok this
      ∧ secretArnLike this = "arn:aws:secretsmanager:us-east-1:123456789012:secret:?-??????"
      ∧ wild_match (secretArnLike this) arn = true
      ∧ ¬ secret_arn_shape sample_stack (secretName wildcard_props) arn.
Proof.
  cbv zeta. split; [discriminate|].
  exists (constructed sample_env "Key" wildcard_props).
  split; [reflexivity|]. split; [reflexivity|]. split; [reflexivity|].
  intros (suffix & _ & H). cbn in H. discriminate H.
Qed.

(** * Further properties of the construct *)

(** ** Strings *)

Lemma string_app_nil_r (s : string) : s +:+ "" = s.
Proof.
  induction s as [|c s IH]; [reflexivity|].
  change (String c s +:+ "") with (String c (s +:+ "")). rewrite IH. reflexivity.
Qed.

Lemma all_alnum_app a b : all_alnum (a +:+ b) = all_alnum a && all_alnum b.
Proof.
  induction a as [|c a IH]; [reflexivity|].
  change (String c a +:+ b) with (String c (a +:+ b)).
  cbn [all_alnum]. rewrite IH. apply andb_assoc.
Qed.

Lemma strip_non_alnum_all_alnum s : all_alnum (strip_non_alnum s) = true.
Proof.
  induction s as [|c s IH]; [reflexivity|].
  cbn [strip_non_alnum]. destruct (is_alnum c) eqn:Hc; [|exact IH].
  cbn [all_alnum]. rewrite Hc, IH. reflexivity.
Qed.

Lemma strip_non_alnum_id s : all_alnum s = true → strip_non_alnum s = s.
Proof.
  induction s as [|c s IH]; [reflexivity|].
  cbn [all_alnum strip_non_alnum]. intros H. apply andb_true_iff in H as [Hc Hs].
  rewrite Hc, (IH Hs). reflexivity.
Qed.

(** Every string, read as a pattern, matches itself. *)
Lemma wild_match_refl s : wild_match s s = true.
Proof.
  rewrite <- (string_app_nil_r s) at 1 2. apply wild_match_same_prefix. reflexivity.
Qed.

(** A pattern without wildcards matches itself only. *)
Lemma wild_match_literal_exact p s :
  wildcard_free p = true → wild_match p s = true ↔ s = p.
Proof.
  intros Hfree. split.
  - intros Hm. rewrite <- (string_app_nil_r p) in Hm.
    apply wild_match_literal_prefix in Hm as (t & -> & Ht); [|exact Hfree].
    destruct t; [apply string_app_nil_r|discriminate Ht].
  - intros ->. apply wild_match_refl.
Qed.

(** ** Policies grow by [Allow] statements *)

Lemma policy_allows_app_allow req (l a : list iam.PolicyStatement) :
  Forall (λ s, iam.effect s = iam.Allow) a →
  policy_allows req l = true →
  policy_allows req (l ++ a) = true.
Proof.
  intros Ha. unfold policy_allows. rewrite !existsb_app.
  assert (Hd : existsb (λ s, bool_decide (iam.effect s = iam.Deny) && statement_applies req s) a
               = false).
  { induction Ha as [|s a Hs _ IH]; [reflexivity|].
    cbn [existsb]. rewrite IH, Hs. reflexivity. }
  rewrite Hd, orb_false_r. intros H. apply andb_true_iff in H as [H1 H2].
  rewrite H1, H2. reflexivity.
Qed.

Lemma policy_allows_swap req (l a b : list iam.PolicyStatement) :
  policy_allows req ((l ++ a) ++ b) = policy_allows req ((l ++ b) ++ a).
Proof.
  unfold policy_allows. rewrite !existsb_app, <- !orb_assoc.
  rewrite (orb_comm (existsb _ a) (existsb _ b)).
  f_equal. f_equal. f_equal. apply orb_comm.
Qed.

Lemma constructor_key_policy env id r w p k :
  props_heap w !! r = Some p →
  key_policy (constructor env id r w).1 k = key_policy w k ++ constructed_on_key env p k.
Proof.
  intros Hp. unfold key_policy, constructed_on_key.
  destruct (secretEncryptionKey p) as [key|] eqn:Hk;
    [destruct (handlerRole env) as [role|] eqn:Hr|].
  - rewrite (constructor_with_key env id r w p key role Hp Hk Hr). cbn [fst key_policies].
    apply push_statement_lookup.
  - rewrite (constructor_with_key_without_role env id r w p key Hp Hk Hr).
    cbn [fst key_policies]. rewrite app_nil_r. reflexivity.
  - rewrite (constructor_without_key env id r w p Hp Hk).
    cbn [fst key_policies]. rewrite app_nil_r. reflexivity.
Qed.

Lemma constructor_principal_policies env id r w :
  principal_policies (constructor env id r w).1 = principal_policies w.
Proof.
  destruct (props_heap w !! r) as [p|] eqn:Hp;
    [|rewrite (constructor_dangling_props env id r w Hp); reflexivity].
  destruct (secretEncryptionKey p) as [key|] eqn:Hk;
    [destruct (handlerRole env) as [role|] eqn:Hr|].
  - rewrite (constructor_with_key env id r w p key role Hp Hk Hr). reflexivity.
  - rewrite (constructor_with_key_without_role env id r w p key Hp Hk Hr). reflexivity.
  - rewrite (constructor_without_key env id r w p Hp Hk). reflexivity.
Qed.

Lemma defaulted_explicit p d : deletionPolicy p = Some d → defaulted p = p.
Proof. destruct p as [ks n de k dp]. cbn. intros ->. reflexivity. Qed.

(** ** When the constructor fails *)

(** X1.  The constructor returns an object only if no encryption key is
    supplied or the handler has a role: a key together with a role-less
    handler makes it throw, where it reads [roleArn] off the absent role. *)
Theorem constructor_returns_only_with_role_or_no_key env id r w p :
  props_heap w !! r = Some p →
  ((∃ this, (constructor env id r w).2 = Ok this) →
     secretEncryptionKey p = None ∨ is_Some (handlerRole env))
  ∧ (is_Some (secretEncryptionKey p) → handlerRole env = None →
     ∃ e, (constructor env id r w).2 = Throw e).
Proof.
  intros Hp. split.
  - intros [this Hrun].
    destruct (secretEncryptionKey p) as [key|] eqn:Hk; [|left; reflexivity].
    destruct (handlerRole env) as [role|] eqn:Hr; [right; eauto|].
    rewrite (constructor_with_key_without_role env id r w p key Hp Hk Hr) in Hrun.
    discriminate Hrun.
  - intros [key Hk] Hr.
    rewrite (constructor_with_key_without_role env id r w p key Hp Hk Hr). eauto.
Qed.

(** X1, witness: the keyed sample spec under a handler without a role. *)
Lemma constructor_returns_only_with_role_or_no_key_witness :
  props_heap (with_props 0 keyed_props empty_world) !! 0%nat = Some keyed_props
  ∧ is_Some (secretEncryptionKey keyed_props)
  ∧ handlerRole roleless_env = None
  ∧ ∃ e, (constructor roleless_env "Key" 0 (with_props 0 keyed_props empty_world)).2
         = Throw e.
Proof.
  assert (H1 : props_heap (with_props 0 keyed_props empty_world) !! 0%nat = Some keyed_props)
    by reflexivity.
  assert (H2 : is_Some (secretEncryptionKey keyed_props)) by (eexists; reflexivity).
  assert (H3 : handlerRole roleless_env = None) by reflexivity.
  split; [exact H1|]. split; [exact H2|]. split; [exact H3|].
  exact (proj2 (constructor_returns_only_with_role_or_no_key roleless_env "Key" 0%nat
                  (with_props 0 keyed_props empty_world) keyed_props H1) H2 H3).
Defined.

(** X2.  A construction that throws is not undone: the caller's props
    object already carries its deletion policy, while no custom resource and
    no policy object has been created and no key or grantee policy has
    changed. *)
Theorem failed_construction_keeps_props_default env id r w p key :
  props_heap w !! r = Some p →
  secretEncryptionKey p = Some key →
  handlerRole env = None →
  let run := constructor env id r w in
  (∃ e, run.2 = Throw e)
  ∧ props_heap run.1 !! r = Some (defaulted p)
  ∧ custom_resources run.1 = custom_resources w
  ∧ policies run.1 = policies w
  ∧ key_policies run.1 = key_policies w
  ∧ principal_policies run.1 = principal_policies w.
Proof.
  intros Hp Hk Hr run. subst run.
  rewrite (constructor_with_key_without_role env id r w p key Hp Hk Hr).
  cbn [fst snd props_heap custom_resources policies key_policies principal_policies].
  split_and!; try reflexivity; [eauto|apply lookup_insert_eq].
Qed.

(** X2, witness: a keyed spec without a deletion policy under a handler
    without a role. *)
Lemma failed_construction_keeps_props_default_witness :
  props_heap (with_props 0 second_props empty_world) !! 0%nat = Some second_props
  ∧ secretEncryptionKey second_props = Some sample_key
  ∧ handlerRole roleless_env = None
  ∧ deletionPolicy
      <$> props_heap (constructor roleless_env "Key" 0
                        (with_props 0 second_props empty_world)).1 !! 0%nat
      = Some (Some cdk.Retain)
  ∧ custom_resources (constructor roleless_env "Key" 0
                        (with_props 0 second_props empty_world)).1 = [].
Proof.
  assert (H1 : props_heap (with_props 0 second_props empty_world) !! 0%nat
               = Some second_props) by reflexivity.
  assert (H2 : secretEncryptionKey second_props = Some sample_key) by reflexivity.
  assert (H3 : handlerRole roleless_env = None) by reflexivity.
  split; [exact H1|]. split; [exact H2|]. split; [exact H3|].
  destruct (failed_construction_keeps_props_default roleless_env "Key" 0%nat
              (with_props 0 second_props empty_world) second_props sample_key H1 H2 H3)
    as (_ & Hprops & Hcr & _).
  rewrite Hprops, Hcr. split; reflexivity.
Defined.

(** ** The deletion policy *)

(** X3.  A deletion policy the caller supplies is respected: the props
    object is left exactly as it was, and a construction that completes
    gives the custom resource that very policy. *)
Theorem explicit_deletion_policy_is_kept env id r w p d :
  props_heap w !! r = Some p →
  deletionPolicy p = Some d →
  let run := constructor env id r w in
  props_heap run.1 = props_heap w
  ∧ (completes env p →
     ∃ cr, last (custom_resources run.1) = Some cr ∧ cfn.deletionPolicy cr = Some d).
Proof.
  intros Hp Hd run. subst run. split.
  - rewrite (constructor_props_heap env id r w p Hp), (defaulted_explicit p d Hd).
    apply insert_id, Hp.
  - intros Hc. rewrite (constructor_completes env id r w p Hp Hc).
    exists (private_key_resource env id p).
    cbn [fst world_after custom_resources]. rewrite last_snoc.
    split; [reflexivity|]. cbn. rewrite Hd. reflexivity.
Qed.

(** X3, witness: the keyed sample spec asks for [Delete]. *)
Lemma explicit_deletion_policy_is_kept_witness :
  props_heap (with_props 0 keyed_props empty_world) !! 0%nat = Some keyed_props
  ∧ deletionPolicy keyed_props = Some cdk.Delete
  ∧ props_heap (constructor sample_env "Key" 0 (with_props 0 keyed_props empty_world)).1
      = props_heap (with_props 0 keyed_props empty_world)
  ∧ ∃ cr, last (custom_resources
                  (constructor sample_env "Key" 0 (with_props 0 keyed_props empty_world)).1)
          = Some cr
          ∧ cfn.deletionPolicy cr = Some cdk.Delete.
Proof.
  assert (H1 : props_heap (with_props 0 keyed_props empty_world) !! 0%nat = Some keyed_props)
    by reflexivity.
  assert (H2 : deletionPolicy keyed_props = Some cdk.Delete) by reflexivity.
  split; [exact H1|]. split; [exact H2|].
  destruct (explicit_deletion_policy_is_kept sample_env "Key" 0%nat
              (with_props 0 keyed_props empty_world) keyed_props cdk.Delete H1 H2)
    as [Hheap Hcr].
  split; [exact Hheap|]. apply Hcr. right. eexists. reflexivity.
Defined.

(** ** The statement id of the key grant *)

(** X5.  Whatever the secret name, the [Sid] of the key-grant statement
    consists of ASCII letters and digits only; for a name that is itself
    alphanumeric it is [AWSSecretsManager<name>CMK]. *)
Theorem key_grant_sid_is_alphanumeric env id r w p key role :
  props_heap w !! r = Some p →
  secretEncryptionKey p = Some key →
  handlerRole env = Some role →
  ∃ grant s sid,
    policies (constructor env id r w).1 = policies w ++ [grant]
    ∧ iam.statements grant = [s]
    ∧ iam.sid s = Some sid
    ∧ all_alnum sid = true
    ∧ (all_alnum (secretName p) = true →
       sid = "AWSSecretsManager" +:+ secretName p +:+ "CMK").
Proof.
  intros Hp Hk Hr.
  rewrite (constructor_with_key env id r w p key role Hp Hk Hr).
  eexists _, _, _. cbn [fst policies].
  split; [reflexivity|]. split; [reflexivity|]. split; [reflexivity|]. split.
  - rewrite !all_alnum_app, strip_non_alnum_all_alnum. reflexivity.
  - intros Hn. rewrite (strip_non_alnum_id _ Hn). reflexivity.
Qed.

(** X5, witness: a secret name with a slash and an underscore. *)
Lemma key_grant_sid_is_alphanumeric_witness :
  props_heap (with_props 0 second_props empty_world) !! 0%nat = Some second_props
  ∧ secretEncryptionKey second_props = Some sample_key
  ∧ handlerRole sample_env = Some sample_role
  ∧ ∃ grant s sid,
      policies (constructor sample_env "Key" 0 (with_props 0 second_props empty_world)).1
        = [grant]
      ∧ iam.statements grant = [s]
      ∧ iam.sid s = Some sid
      ∧ all_alnum sid = true.
Proof.
  assert (H1 : props_heap (with_props 0 second_props empty_world) !! 0%nat
               = Some second_props) by reflexivity.
  assert (H2 : secretEncryptionKey second_props = Some sample_key) by reflexivity.
  assert (H3 : handlerRole sample_env = Some sample_role) by reflexivity.
  split; [exact H1|]. split; [exact H2|]. split; [exact H3|].
  destruct (key_grant_sid_is_alphanumeric sample_env "Key" 0%nat
              (with_props 0 second_props empty_world) second_props sample_key sample_role
              H1 H2 H3) as (grant & s & sid & Hpol & Hst & Hsid & Hal & _).
  exists grant, s, sid. split_and!; assumption.
Defined.

(** ** The handler's code *)

(** X6.  The version hash of the request is taken over the very directory
    that is deployed as the handler's code, and that directory is
    [custom-resource-handlers/bin/private-key] two levels above the
    directory of the module. *)
Theorem version_hash_covers_deployed_code env id r w p :
  props_heap w !! r = Some p →
  completes env p →
  ∃ cr,
    last (custom_resources (constructor env id r w).1) = Some cr
    ∧ cfn.resourceVersion (cfn.properties cr) =
        hashFileOrDirectory env (lambda.code (lambda.props (cfn.lambdaProvider cr)))
    ∧ (∀ base a b, dirname env = base ++ [a; b] →
         lambda.code (lambda.props (cfn.lambdaProvider cr)) =
           base ++ ["custom-resource-handlers"; "bin"; "private-key"]).
Proof.
  intros Hp Hc. rewrite (constructor_completes env id r w p Hp Hc).
  exists (private_key_resource env id p).
  cbn [fst world_after custom_resources]. rewrite last_snoc.
  split; [reflexivity|]. split; [reflexivity|].
  intros base a b Hd. cbn. rewrite Hd.
  rewrite (removelast_app base (l':=[a; b])) by discriminate. cbn [removelast].
  rewrite (removelast_app base (l':=[a])) by discriminate. cbn [removelast].
  rewrite app_nil_r, <- !app_assoc. reflexivity.
Qed.

(** X6, witness: the module lives in [/srv/delivlib/lib/code-signing]. *)
Lemma version_hash_covers_deployed_code_witness :
  props_heap (with_props 0 plain_props empty_world) !! 0%nat = Some plain_props
  ∧ completes sample_env plain_props
  ∧ ∃ cr,
      last (custom_resources
              (constructor sample_env "Key" 0 (with_props 0 plain_props empty_world)).1)
        = Some cr
      ∧ lambda.code (lambda.props (cfn.lambdaProvider cr)) =
          ["srv"; "delivlib"; "custom-resource-handlers"; "bin"; "private-key"].
Proof.
  assert (H1 : props_heap (with_props 0 plain_props empty_world) !! 0%nat = Some plain_props)
    by reflexivity.
  assert (H2 : completes sample_env plain_props) by (left; reflexivity).
  split; [exact H1|]. split; [exact H2|].
  destruct (version_hash_covers_deployed_code sample_env "Key" 0%nat
              (with_props 0 plain_props empty_world) plain_props H1 H2)
    as (cr & Hcr & _ & Hdir).
  exists cr. split; [exact Hcr|].
  exact (Hdir ["srv"; "delivlib"] "lib" "code-signing" eq_refl).
Defined.

(** ** Construction followed by a grant *)

(** X7.  Granting on a freshly constructed keyed secret: the key's resource
    policy ends with the handler's statement followed by the grantee's, both
    conditioned on the same ARN pattern of this secret; the grantee receives
    the two statements on the secret's ARN token; the handler keeps its
    lifecycle statement. *)
Theorem grant_after_keyed_construction env id r w p key role grantee :
  props_heap w !! r = Some p →
  secretEncryptionKey p = Some key →
  handlerRole env = Some role →
  let endpoint := secretsmanager_endpoint (stack env) in
  let pattern := secret_pattern (stack env) (secretName p) in
  ∃ w1 this w2,
    constructor env id r w = (w1, Ok this)
    ∧ grantGetSecretValue this grantee w1 = (w2, Ok tt)
    ∧ key_policy w2 key =
        key_policy w key ++
        [key_resource_statement (handlerName env) (iam.roleArn role) endpoint pattern;
         key_resource_read_statement (iam.principal grantee) endpoint pattern]
    ∧ principal_policy w2 grantee =
        principal_policy w grantee ++
        [read_secret_statement (secretArn this);
         key_principal_read_statement (kms.keyArn key) endpoint (secretArn this)]
    ∧ handler_policy w2 = handler_policy w ++ [lifecycle_statement pattern].
Proof.
  intros Hp Hk Hr endpoint pattern.
  assert (Hc : completes env p) by (right; rewrite Hr; eauto).
  pose proof (constructor_completes env id r w p Hp Hc) as Hrun.
  exists (constructor env id r w).1, (constructed env id p),
    (grantGetSecretValue (constructed env id p) grantee (constructor env id r w).1).1.
  split; [rewrite Hrun; reflexivity|].
  split; [rewrite <- (grant_returns (constructed env id p) grantee (constructor env id r w).1);
          apply surjective_pairing|].
  split; [|split].
  - rewrite grant_key_policy, (constructor_key_policy env id r w p key Hp).
    unfold granted_on_key, constructed_on_key. cbn [masterKey constructed].
    rewrite Hk, Hr, !decide_True by reflexivity. rewrite <- app_assoc. reflexivity.
  - rewrite grant_principal_policy. unfold principal_policy at 1.
    rewrite constructor_principal_policies. unfold granted_to_principal.
    cbn [masterKey constructed]. rewrite Hk, decide_True by reflexivity. reflexivity.
  - destruct (grant_frame (constructed env id p) grantee (constructor env id r w).1)
      as (-> & _).
    apply (constructor_handler_policy env id r w p Hp).
Qed.

(** X7, witness: the reader is granted access to the keyed sample secret
    right after its construction. *)
Lemma grant_after_keyed_construction_witness :
  props_heap (with_props 0 keyed_props empty_world) !! 0%nat = Some keyed_props
  ∧ secretEncryptionKey keyed_props = Some sample_key
  ∧ handlerRole sample_env = Some sample_role
  ∧ ∃ w1 this w2,
      constructor sample_env "Key" 0 (with_props 0 keyed_props empty_world) = (w1, Ok this)
      ∧ grantGetSecretValue this sample_grantee w1 = (w2, Ok tt)
      ∧ length (key_policy w2 sample_key) = 2%nat
      ∧ length (principal_policy w2 sample_grantee) = 2%nat.
Proof.
  assert (H1 : props_heap (with_props 0 keyed_props empty_world) !! 0%nat = Some keyed_props)
    by reflexivity.
  assert (H2 : secretEncryptionKey keyed_props = Some sample_key) by reflexivity.
  assert (H3 : handlerRole sample_env = Some sample_role) by reflexivity.
  split; [exact H1|]. split; [exact H2|]. split; [exact H3|].
  destruct (grant_after_keyed_construction sample_env "Key" 0%nat
              (with_props 0 keyed_props empty_world) keyed_props sample_key sample_role
              sample_grantee H1 H2 H3) as (w1 & this & w2 & Hc & Hg & Hk & Hpp & _).
  exists w1, this, w2. split; [exact Hc|]. split; [exact Hg|].
  rewrite Hk, Hpp. split; reflexivity.
Defined.

(** ** Nothing is revoked *)

(** X8.  The constructor only ever appends [Allow] statements: whatever a
    grantee's policy, a key's resource policy or the handler's policy
    granted before the call is still granted after it, also when the call
    throws. *)
Theorem constructor_keeps_permissions env id r w :
  permissions_kept w (constructor env id r w).1.
Proof.
  intros req.
  destruct (props_heap w !! r) as [p|] eqn:Hp;
    [|rewrite (constructor_dangling_props env id r w Hp); split_and!; auto].
  split_and!.
  - intros g. unfold principal_policy. rewrite constructor_principal_policies. auto.
  - intros k. rewrite (constructor_key_policy env id r w p k Hp).
    apply policy_allows_app_allow. unfold constructed_on_key.
    destruct (secretEncryptionKey p), (handlerRole env); try constructor.
    destruct (decide _); repeat constructor.
  - rewrite (constructor_handler_policy env id r w p Hp).
    apply policy_allows_app_allow. repeat constructor.
Qed.

(** X9.  [grantGetSecretValue] only ever appends [Allow] statements:
    whatever any policy granted before the call is still granted after it,
    so a grant to one principal never narrows the access of another. *)
Theorem grant_keeps_permissions this grantee w :
  permissions_kept w (grantGetSecretValue this grantee w).1.
Proof.
  intros req. split_and!.
  - intros g. rewrite grant_principal_policy.
    apply policy_allows_app_allow. unfold granted_to_principal.
    destruct (decide _), (masterKey this); repeat constructor.
  - intros k. rewrite grant_key_policy.
    apply policy_allows_app_allow. unfold granted_on_key.
    destruct (masterKey this); try constructor.
    destruct (decide _); repeat constructor.
  - destruct (grant_frame this grantee w) as (-> & _). auto.
Qed.

(** X10.  Grants to two principals can be made in either order: every
    principal ends with the same policy, every policy answers every request
    alike, and each of the two grantees holds its statement on the secret. *)
Theorem grants_commute this g1 g2 w :
  let wa := (grantGetSecretValue this g2 (grantGetSecretValue this g1 w).1).1 in
  let wb := (grantGetSecretValue this g1 (grantGetSecretValue this g2 w).1).1 in
  (∀ g, principal_policy wa g = principal_policy wb g)
  ∧ same_permissions wa wb
  ∧ In (read_secret_statement (secretArn this)) (principal_policy wa g1)
  ∧ In (read_secret_statement (secretArn this)) (principal_policy wa g2).
Proof.
  intros wa wb. subst wa wb.
  assert (Hpp : ∀ g,
    principal_policy (grantGetSecretValue this g2 (grantGetSecretValue this g1 w).1).1 g
    = principal_policy (grantGetSecretValue this g1 (grantGetSecretValue this g2 w).1).1 g).
  { intros g. rewrite !grant_principal_policy, <- !app_assoc. f_equal.
    unfold granted_to_principal.
    destruct (decide (iam.principalId g1 = iam.principalId g)),
             (decide (iam.principalId g2 = iam.principalId g));
      rewrite ?app_nil_r; reflexivity. }
  split; [exact Hpp|]. split; [|split].
  - intros req. split_and!.
    + intros g. rewrite Hpp. reflexivity.
    + intros k. rewrite !grant_key_policy. apply policy_allows_swap.
    + destruct (grant_frame this g2 (grantGetSecretValue this g1 w).1) as (-> & _).
      destruct (grant_frame this g1 (grantGetSecretValue this g2 w).1) as (-> & _).
      destruct (grant_frame this g1 w) as (-> & _).
      destruct (grant_frame this g2 w) as (-> & _). reflexivity.
  - rewrite !grant_principal_policy. apply in_or_app. left. apply in_or_app. right.
    unfold granted_to_principal. rewrite decide_True by reflexivity. left. reflexivity.
  - rewrite grant_principal_policy. apply in_or_app. right.
    unfold granted_to_principal. rewrite decide_True by reflexivity. left. reflexivity.
Qed.

(** ** What a grant makes possible *)

Lemma denied_allow_only req (a : list iam.PolicyStatement) :
  Forall (λ s, iam.effect s = iam.Allow) a → denied req a = false.
Proof.
  unfold denied. induction 1 as [|s a Hs _ IH]; [reflexivity|].
  cbn [existsb]. rewrite IH, Hs. reflexivity.
Qed.

Lemma policy_allows_by req (l a : list iam.PolicyStatement) s :
  denied req l = false →
  Forall (λ s, iam.effect s = iam.Allow) a →
  In s a →
  statement_applies req s = true →
  policy_allows req (l ++ a) = true.
Proof.
  intros Hl Ha Hin Hs. unfold policy_allows. rewrite !existsb_app.
  fold (denied req l) (denied req a). rewrite Hl, (denied_allow_only req a Ha).
  rewrite andb_true_r.
  apply orb_true_iff. right. apply existsb_exists. exists s. split; [exact Hin|].
  rewrite (Forall_forall (λ s, iam.effect s = iam.Allow) a) in Ha.
  apply list_elem_of_In in Hin. rewrite (Ha s Hin), Hs. reflexivity.
Qed.

(** X11.  After [grantGetSecretValue], the grantee's policy allows
    [secretsmanager:GetSecretValue] on the secret's ARN, whatever the
    request context, unless a [Deny] statement already in that policy
    applies. *)
Theorem grantee_may_get_secret_value this grantee w ctx :
  let req := {| req_principal := iam.principal grantee;
                req_action := "secretsmanager:GetSecretValue";
                req_resource := secretArn this;
                req_context := ctx |} in
  denied req (principal_policy w grantee) = false →
  policy_allows req (principal_policy (grantGetSecretValue this grantee w).1 grantee) = true.
Proof.
  intros req Hd. rewrite grant_principal_policy.
  apply (policy_allows_by req _ _ (read_secret_statement (secretArn this)) Hd).
  - unfold granted_to_principal. destruct (decide _), (masterKey this); repeat constructor.
  - unfold granted_to_principal. rewrite decide_True by reflexivity. left. reflexivity.
  - unfold statement_applies. cbn [iam.principals iam.actions iam.resources
      read_secret_statement req_action req_resource req existsb].
    rewrite !wild_match_refl. reflexivity.
Qed.

(** X11, witness: the reader on the sample secret without a key, starting
    from an empty policy. *)
Lemma grantee_may_get_secret_value_witness :
  denied {| req_principal := iam.principal sample_grantee;
            req_action := "secretsmanager:GetSecretValue";
            req_resource := secretArn plain_secret;
            req_context := ∅ |} (principal_policy empty_world sample_grantee) = false
  ∧ policy_allows
      {| req_principal := iam.principal sample_grantee;
         req_action := "secretsmanager:GetSecretValue";
         req_resource := secretArn plain_secret;
         req_context := ∅ |}
      (principal_policy (grantGetSecretValue plain_secret sample_grantee empty_world).1
         sample_grantee) = true.
Proof.
  assert (H1 : denied {| req_principal := iam.principal sample_grantee;
                         req_action := "secretsmanager:GetSecretValue";
                         req_resource := secretArn plain_secret;
                         req_context := ∅ |}
                 (principal_policy empty_world sample_grantee) = false) by reflexivity.
  split; [exact H1|].
  exact (grantee_may_get_secret_value plain_secret sample_grantee empty_world ∅ H1).
Defined.

(** X12.  On a secret with a key, the grantee's policy afterwards allows
    [kms:Decrypt] on the key's ARN for a request that comes through the
    Secrets Manager endpoint of the region with the secret's ARN as
    encryption context, unless a [Deny] statement already in that policy
    applies. *)
Theorem grantee_may_decrypt_via_secrets_manager this grantee w key ctx :
  masterKey this = Some key →
  ctx !! "kms:ViaService" = Some (secretsmanager_endpoint (this_stack this)) →
  ctx !! "kms:EncryptionContext:SecretARN" = Some (secretArn this) →
  let req := {| req_principal := iam.principal grantee;
                req_action := "kms:Decrypt";
                req_resource := kms.keyArn key;
                req_context := ctx |} in
  denied req (principal_policy w grantee) = false →
  policy_allows req (principal_policy (grantGetSecretValue this grantee w).1 grantee) = true.
Proof.
  intros Hk Hvia Harn req Hd. rewrite grant_principal_policy.
  apply (policy_allows_by req _ _
           (key_principal_read_statement (kms.keyArn key)
              (secretsmanager_endpoint (this_stack this)) (secretArn this)) Hd).
  - unfold granted_to_principal. destruct (decide _), (masterKey this); repeat constructor.
  - unfold granted_to_principal. rewrite Hk, decide_True by reflexivity.
    right. left. reflexivity.
  - unfold statement_applies. cbn [iam.principals iam.actions iam.resources
      key_principal_read_statement req_action req_resource req_context req existsb].
    rewrite !wild_match_refl.
    assert (Hc : conditions_hold ctx
                   (key_principal_read_statement (kms.keyArn key)
                      (secretsmanager_endpoint (this_stack this)) (secretArn this)) = true).
    { apply (dual_conditions_hold ctx
               (key_principal_read_statement (kms.keyArn key)
                  (secretsmanager_endpoint (this_stack this)) (secretArn this))
               (secretsmanager_endpoint (this_stack this))
               iam.ArnEquals (iam.One (secretArn this)) eq_refl).
      split; [exact Hvia|]. exists (secretArn this). split; [exact Harn|].
      cbn [condition_values existsb operator_test]. rewrite String.eqb_refl. reflexivity. }
    rewrite Hc. reflexivity.
Qed.

(** X12, witness: the reader decrypts for the keyed sample secret. *)
Lemma grantee_may_decrypt_via_secrets_manager_witness :
  let ctx : gmap string string :=
    {[ "kms:ViaService" := "secretsmanager.us-east-1.amazonaws.com";
       "kms:EncryptionContext:SecretARN" := "${Token[Key/Resource.SecretArn]}" ]} in
  masterKey keyed_secret = Some sample_key
  ∧ policy_allows
      {| req_principal := iam.principal sample_grantee;
         req_action := "kms:Decrypt";
         req_resource := kms.keyArn sample_key;
         req_context := ctx |}
      (principal_policy (grantGetSecretValue keyed_secret sample_grantee empty_world).1
         sample_grantee) = true.
Proof.
  cbv zeta.
  assert (H1 : masterKey keyed_secret = Some sample_key) by reflexivity.
  split; [exact H1|].
  apply (grantee_may_decrypt_via_secrets_manager keyed_secret sample_grantee empty_world
           sample_key _ H1); reflexivity.
Defined.

(** X13.  Every KMS statement a grant adds, to the grantee or to a key, is
    bound to Secrets Manager: it applies to a request only if
    [kms:ViaService] is the Secrets Manager endpoint of the region and the
    encryption context names this secret, by its ARN or by a string the ARN
    pattern matches. *)
Theorem granted_kms_statements_are_scoped this grantee w g k :
  ∃ to_principal to_key,
    principal_policy (grantGetSecretValue this grantee w).1 g
      = principal_policy w g ++ to_principal
    ∧ key_policy (grantGetSecretValue this grantee w).1 k = key_policy w k ++ to_key
    ∧ ∀ s req,
        In s (to_principal ++ to_key) →
        is_kms_statement s = true →
        statement_applies req s = true →
        req_context req !! "kms:ViaService"
          = Some (secretsmanager_endpoint (this_stack this))
        ∧ ∃ arn, req_context req !! "kms:EncryptionContext:SecretARN" = Some arn
            ∧ (arn = secretArn this ∨ wild_match (secretArnLike this) arn = true).
Proof.
  exists (granted_to_principal this grantee g), (granted_on_key this grantee k).
  split; [apply grant_principal_policy|]. split; [apply grant_key_policy|].
  intros s req Hin Hkms Happ.
  assert (Hcond : conditions_hold (req_context req) s = true).
  { unfold statement_applies in Happ. apply andb_true_iff in Happ as [_ H]. exact H. }
  clear Happ.
  unfold granted_to_principal, granted_on_key in Hin.
  assert (Hcases :
    s = read_secret_statement (secretArn this)
    ∨ (∃ key, s = key_principal_read_statement (kms.keyArn key)
                    (secretsmanager_endpoint (this_stack this)) (secretArn this))
    ∨ s = key_resource_read_statement (iam.principal grantee)
            (secretsmanager_endpoint (this_stack this)) (secretArnLike this)).
  { destruct (masterKey this) as [key|], (decide (iam.principalId grantee = iam.principalId g));
      try destruct (decide (kms.keyArn key = kms.keyArn k));
      cbn in Hin; intuition eauto. }
  destruct Hcases as [->|[[key ->]| ->]].
  - discriminate Hkms.
  - apply (dual_conditions_hold (req_context req)
             (key_principal_read_statement (kms.keyArn key)
                (secretsmanager_endpoint (this_stack this)) (secretArn this))
             (secretsmanager_endpoint (this_stack this))
             iam.ArnEquals (iam.One (secretArn this)) eq_refl) in Hcond
      as [Hvia (arn & Harn & Hm)].
    split; [exact Hvia|]. exists arn. split; [exact Harn|]. left.
    cbn [condition_values existsb operator_test] in Hm. rewrite orb_false_r in Hm.
    apply String.eqb_eq in Hm. symmetry. exact Hm.
  - apply (dual_conditions_hold (req_context req)
             (key_resource_read_statement (iam.principal grantee)
                (secretsmanager_endpoint (this_stack this)) (secretArnLike this))
             (secretsmanager_endpoint (this_stack this))
             iam.ArnLike (iam.One (secretArnLike this)) eq_refl) in Hcond
      as [Hvia (arn & Harn & Hm)].
    split; [exact Hvia|]. exists arn. split; [exact Harn|]. right.
    cbn [condition_values existsb operator_test] in Hm. rewrite orb_false_r in Hm.
    exact Hm.
Qed.

(** ** The reach of the lifecycle statement *)

(** X14.  The statement the constructor hands to the handler applies to a
    request exactly when the action is one of CreateSecret, DeleteSecret and
    UpdateSecret of Secrets Manager and the resource matches the ARN pattern
    of this secret; it applies to no other action, reading the secret value
    included. *)
Theorem lifecycle_statement_reach env id r w p :
  props_heap w !! r = Some p →
  ∃ s,
    handler_policy (constructor env id r w).1 = handler_policy w ++ [s]
    ∧ ∀ req,
        statement_applies req s = true
        ↔ In (req_action req) lifecycle_actions
          ∧ wild_match (secret_pattern (stack env) (secretName p)) (req_resource req) = true.
Proof.
  intros Hp. exists (lifecycle_statement (secret_pattern (stack env) (secretName p))).
  split; [exact (constructor_handler_policy env id r w p Hp)|].
  intros req. unfold statement_applies, lifecycle_actions.
  cbn [iam.principals iam.actions iam.resources lifecycle_statement existsb In].
  change (conditions_hold (req_context req)
            (lifecycle_statement (secret_pattern (stack env) (secretName p)))) with true.
  rewrite andb_true_r, !orb_false_r, andb_true_l, andb_true_iff, !orb_true_iff.
  rewrite !wild_match_literal_exact by reflexivity.
  intuition congruence.
Qed.

(** X14, witness: on the [db-root] secret the handler may update the secret
    but the statement does not let it read the value. *)
Lemma lifecycle_statement_reach_witness :
  props_heap (with_props 0 plain_props empty_world) !! 0%nat = Some plain_props
  ∧ ∃ s,
      handler_policy (constructor sample_env "Key" 0
                        (with_props 0 plain_props empty_world)).1 = [s]
      ∧ statement_applies
          {| req_principal := iam.ArnPrincipal (iam.roleArn sample_role);
             req_action := "secretsmanager:UpdateSecret";
             req_resource :=
               "arn:aws:secretsmanager:us-east-1:123456789012:secret:db-root-a1B2c3";
             req_context := ∅ |} s = true
      ∧ statement_applies
          {| req_principal := iam.ArnPrincipal (iam.roleArn sample_role);
             req_action := "secretsmanager:GetSecretValue";
             req_resource :=
               "arn:aws:secretsmanager:us-east-1:123456789012:secret:db-root-a1B2c3";
             req_context := ∅ |} s ≠ true.
Proof.
  assert (H1 : props_heap (with_props 0 plain_props empty_world) !! 0%nat = Some plain_props)
    by reflexivity.
  split; [exact H1|].
  destruct (lifecycle_statement_reach sample_env "Key" 0%nat
              (with_props 0 plain_props empty_world) plain_props H1) as (s & Hs & Hreach).
  exists s. split; [exact Hs|]. split.
  - apply Hreach. split; [right; right; left; reflexivity|reflexivity].
  - intros Happ. apply Hreach in Happ as [Hin _].
    cbn in Hin. destruct Hin as [H|[H|[H|[]]]]; discriminate H.
Defined.

(** ** Secrets do not reach each other *)

Lemma string_app_inv_head (a x y : string) : a +:+ x = a +:+ y → x = y.
Proof.
  induction a as [|c a IH]; [intros H; exact H|].
  change (String c (a +:+ x) = String c (a +:+ y) → x = y).
  intros [= H]. exact (IH H).
Qed.

Lemma string_length_app (a b : string) :
  String.length (a +:+ b) = (String.length a + String.length b)%nat.
Proof.
  induction a as [|c a IH]; [reflexivity|].
  change (String c a +:+ b) with (String c (a +:+ b)). cbn [String.length].
  rewrite IH. reflexivity.
Qed.

(** Two strings that end in tails of equal length and are equal as a whole
    have equal heads. *)
Lemma string_app_inv_tail_length (a b x y : string) :
  String.length x = String.length y → a +:+ x = b +:+ y → a = b.
Proof.
  intros Hlen. revert b. induction a as [|c a IH]; intros [|d b] H.
  - reflexivity.
  - exfalso. apply (f_equal String.length) in H.
    change (String d b +:+ y) with (String d (b +:+ y)) in H.
    change ("" +:+ x) with x in H.
    cbn [String.length] in H. rewrite string_length_app in H. lia.
  - exfalso. apply (f_equal String.length) in H.
    change (String c a +:+ x) with (String c (a +:+ x)) in H.
    change ("" +:+ y) with y in H.
    cbn [String.length] in H. rewrite string_length_app in H. lia.
  - change (String c (a +:+ x) = String d (b +:+ y)) in H.
    injection H as -> H. rewrite (IH b H). reflexivity.
Qed.

Lemma secret_arn_shape_name st n1 n2 arn :
  secret_arn_shape st n1 arn → secret_arn_shape st n2 arn → n1 = n2.
Proof.
  intros (t1 & Hl1 & ->) (t2 & Hl2 & H).
  unfold cdk.formatArn in H.
  cbn [cdk.service cdk.resource cdk.sep cdk.resourceName] in H.
  do 11 apply string_app_inv_head in H.
  apply (string_app_inv_tail_length n1 n2 ("-" +:+ t1) ("-" +:+ t2)); [|exact H].
  change (S (String.length t1) = S (String.length t2)). rewrite Hl1, Hl2. reflexivity.
Qed.

(** X16.  When the secret name and the stack context carry no wildcard,
    the handler's lifecycle statement for this secret applies to no request
    on the ARN of a secret with a different name. *)
Theorem lifecycle_statement_spares_other_secrets env id r w p :
  props_heap w !! r = Some p →
  literal_context (stack env) (secretName p) = true →
  ∃ s,
    handler_policy (constructor env id r w).1 = handler_policy w ++ [s]
    ∧ ∀ other req,
        other ≠ secretName p →
        secret_arn_shape (stack env) other (req_resource req) →
        statement_applies req s = false.
Proof.
  intros Hp Hlit. exists (lifecycle_statement (secret_pattern (stack env) (secretName p))).
  split; [exact (constructor_handler_policy env id r w p Hp)|].
  intros other req Hne Hshape.
  destruct (wild_match (secret_pattern (stack env) (secretName p)) (req_resource req))
    eqn:Hm.
  - exfalso. apply Hne. symmetry.
    apply (secret_arn_shape_name (stack env) (secretName p) other (req_resource req));
      [|exact Hshape].
    apply secret_pattern_sound; assumption.
  - unfold statement_applies.
    cbn [iam.principals iam.actions iam.resources lifecycle_statement existsb].
    rewrite Hm. cbn [orb]. rewrite andb_false_r. reflexivity.
Qed.

(** X16, witness: the statement for [db-root] does not cover the secret
    [db-rooz]. *)
Lemma lifecycle_statement_spares_other_secrets_witness :
  props_heap (with_props 0 plain_props empty_world) !! 0%nat = Some plain_props
  ∧ literal_context (stack sample_env) (secretName plain_props) = true
  ∧ ∃ s,
      handler_policy (constructor sample_env "Key" 0
                        (with_props 0 plain_props empty_world)).1 = [s]
      ∧ statement_applies
          {| req_principal := iam.ArnPrincipal (iam.roleArn sample_role);
             req_action := "secretsmanager:DeleteSecret";
             req_resource :=
               "arn:aws:secretsmanager:us-east-1:123456789012:secret:db-rooz-a1B2c3";
             req_context := ∅ |} s = false.
Proof.
  assert (H1 : props_heap (with_props 0 plain_props empty_world) !! 0%nat = Some plain_props)
    by reflexivity.
  assert (H2 : literal_context (stack sample_env) (secretName plain_props) = true)
    by reflexivity.
  split; [exact H1|]. split; [exact H2|].
  destruct (lifecycle_statement_spares_other_secrets sample_env "Key" 0%nat
              (with_props 0 plain_props empty_world) plain_props H1 H2) as (s & Hs & Hsp).
  exists s. split; [exact Hs|].
  apply (Hsp "db-rooz"); [discriminate|].
  exists "a1B2c3". split; reflexivity.
Defined.

(** ** Who the key statements are for *)

(** X17.  The statement a grant puts on the key's resource policy is for
    the grantee alone: it applies only to requests made by the grantee's
    principal, and only to the action [kms:Decrypt]. *)
Theorem granted_key_statement_names_the_grantee this grantee w k :
  ∃ to_key,
    key_policy (grantGetSecretValue this grantee w).1 k = key_policy w k ++ to_key
    ∧ ∀ s req,
        In s to_key →
        statement_applies req s = true →
        req_principal req = iam.principal grantee ∧ req_action req = "kms:Decrypt".
Proof.
  exists (granted_on_key this grantee k). split; [apply grant_key_policy|].
  intros s req Hin Happ. unfold granted_on_key in Hin.
  destruct (masterKey this) as [key|]; [|destruct Hin].
  destruct (decide (kms.keyArn key = kms.keyArn k)); [|destruct Hin].
  destruct Hin as [<-|[]].
  unfold statement_applies in Happ.
  cbn [iam.principals iam.actions iam.resources key_resource_read_statement existsb]
    in Happ.
  rewrite !andb_true_iff, !orb_false_r in Happ.
  destruct Happ as [[[Hpr Hact] _] _].
  split.
  - apply bool_decide_eq_true in Hpr. apply list_elem_of_singleton in Hpr. exact Hpr.
  - apply (wild_match_literal_exact "kms:Decrypt"); [reflexivity|exact Hact].
Qed.

(** ** One props object, two constructs *)

Lemma string_app_inv_tail (a b x : string) : a +:+ x = b +:+ x → a = b.
Proof. apply string_app_inv_tail_length. reflexivity. Qed.

(** X4.  A props object that served one construction can serve another
    under a different id: the second construction finds the deletion policy
    the first one wrote, leaves the object unchanged, and gives its custom
    resource the same policy as the first; the two resources sit under
    different paths. *)
Theorem props_object_reused env1 env2 id1 id2 r w p :
  id1 ≠ id2 →
  props_heap w !! r = Some p →
  completes env1 p →
  completes env2 p →
  let w1 := (constructor env1 id1 r w).1 in
  let w2 := (constructor env2 id2 r w1).1 in
  props_heap w2 = props_heap w1
  ∧ ∃ cr1 cr2,
      custom_resources w2 = custom_resources w ++ [cr1; cr2]
      ∧ cfn.deletionPolicy cr2 = cfn.deletionPolicy cr1
      ∧ cfn.path cr1 = id1 +:+ "/Resource"
      ∧ cfn.path cr2 = id2 +:+ "/Resource"
      ∧ cfn.path cr1 ≠ cfn.path cr2.
Proof.
  intros Hid Hp Hc1 Hc2 w1 w2.
  assert (Hp1 : props_heap w1 !! r = Some (defaulted p)).
  { subst w1. rewrite (constructor_props_heap env1 id1 r w p Hp). apply lookup_insert_eq. }
  assert (Hc2' : completes env2 (defaulted p)) by exact Hc2.
  split.
  - subst w2. rewrite (constructor_props_heap env2 id2 r w1 (defaulted p) Hp1).
    apply insert_id, Hp1.
  - exists (private_key_resource env1 id1 p), (private_key_resource env2 id2 (defaulted p)).
    subst w2. rewrite (constructor_completes env2 id2 r w1 (defaulted p) Hp1 Hc2').
    subst w1. rewrite (constructor_completes env1 id1 r w p Hp Hc1).
    cbn [fst world_after custom_resources]. rewrite <- app_assoc.
    split_and!; try reflexivity.
    cbn [cfn.path private_key_resource]. intros Heq. apply Hid.
    exact (string_app_inv_tail id1 id2 "/Resource" Heq).
Qed.

(** X4, witness: two constructs built from the props of the [db-root]
    scenario. *)
Lemma props_object_reused_witness :
  "A" ≠ "B"
  ∧ props_heap (with_props 0 plain_props empty_world) !! 0%nat = Some plain_props
  ∧ completes sample_env plain_props
  ∧ completes rebuilt_env plain_props
  ∧ props_heap (constructor rebuilt_env "B" 0
                  (constructor sample_env "A" 0 (with_props 0 plain_props empty_world)).1).1
    = props_heap (constructor sample_env "A" 0 (with_props 0 plain_props empty_world)).1.
Proof.
  assert (H0 : "A" ≠ "B") by discriminate.
  assert (H1 : props_heap (with_props 0 plain_props empty_world) !! 0%nat = Some plain_props)
    by reflexivity.
  assert (H2 : completes sample_env plain_props) by (left; reflexivity).
  assert (H3 : completes rebuilt_env plain_props) by (left; reflexivity).
  split; [exact H0|]. split; [exact H1|]. split; [exact H2|]. split; [exact H3|].
  exact (proj1 (props_object_reused sample_env rebuilt_env "A" "B" 0%nat
                  (with_props 0 plain_props empty_world) plain_props H0 H1 H2 H3)).
Defined.

(** ** The lifecycle statement *)

Lemma lifecycle_statement_applies_iff pattern req :
  statement_applies req (lifecycle_statement pattern) = true
  ↔ In (req_action req) lifecycle_actions ∧ wild_match pattern (req_resource req) = true.
Proof.
  unfold statement_applies, lifecycle_actions.
  cbn [iam.principals iam.actions iam.resources lifecycle_statement existsb In].
  change (conditions_hold (req_context req) (lifecycle_statement pattern)) with true.
  rewrite andb_true_r, !orb_false_r, andb_true_l, andb_true_iff, !orb_true_iff.
  rewrite !wild_match_literal_exact by reflexivity.
  intuition congruence.
Qed.

Lemma lifecycle_statement_misses_other_names st name other req :
  literal_context st name = true →
  other ≠ name →
  secret_arn_shape st other (req_resource req) →
  statement_applies req (lifecycle_statement (secret_pattern st name)) = false.
Proof.
  intros Hlit Hne Hshape. apply not_true_is_false. intros Happ.
  apply lifecycle_statement_applies_iff in Happ as [_ Hm].
  apply Hne. symmetry.
  apply (secret_arn_shape_name st name other (req_resource req)); [|exact Hshape].
  apply secret_pattern_sound; assumption.
Qed.

(** A pattern that starts with ["*"] lets any text come first. *)
Lemma wild_match_star_suffix n q t :
  wild_match q t = true → wild_match (String "*" q) (n +:+ t) = true.
Proof.
  intros Hm. induction n as [|c n IH].
  - apply wild_match_star_here, Hm.
  - change (String c n +:+ t) with (String c (n +:+ t)).
    apply wild_match_star_skip, IH.
Qed.

(** The pattern resolved for the name ["*"] matches the ARN of every secret
    of the stack's account and region. *)
Lemma star_pattern_complete st name arn :
  secret_arn_shape st name arn → wild_match (secret_pattern st "*") arn = true.
Proof.
  intros (suffix & Hlen & ->).
  unfold secret_pattern, cdk.formatArn.
  cbn [cdk.service cdk.resource cdk.sep cdk.resourceName].
  do 11 apply wild_match_same_prefix.
  apply (wild_match_star_suffix name "-??????" ("-" +:+ suffix)).
  apply (wild_match_same_prefix "-" "??????" suffix), wild_match_six, Hlen.
Qed.

(** C6, as the code has it.  For every spec without an encryption key, and
    a handler that has an execution role, construction completes and
    attaches exactly one statement to that role; its actions are exactly
    CreateSecret, DeleteSecret and UpdateSecret of Secrets Manager, its only
    resource is the resolved ARN pattern of the secret, and no statement
    reaches a key policy, a grantee or a separate policy object.  When the
    secret name and the stack's partition, region and account carry no
    wildcard, the statement applies to no secret of another name. *)
Theorem lifecycle_statement_only_without_key env id r w p role :
  props_heap w !! r = Some p →
  secretEncryptionKey p = None →
  handlerRole env = Some role →
  ∃ w' this s,
    constructor env id r w = (w', Ok this)
    ∧ role_policy env w' = role_policy env w ++ [s]
    ∧ iam.effect s = iam.Allow
    ∧ iam.actions s = ["secretsmanager:CreateSecret"; "secretsmanager:DeleteSecret";
                       "secretsmanager:UpdateSecret"]
    ∧ iam.resources s = [secretArnLike this]
    ∧ secretArnLike this = secret_pattern (stack env) (secretName p)
    ∧ iam.conditions s = []
    ∧ is_kms_statement s = false
    ∧ key_policies w' = key_policies w
    ∧ principal_policies w' = principal_policies w
    ∧ policies w' = policies w
    ∧ (literal_context (stack env) (secretName p) = true →
       ∀ other req,
         other ≠ secretName p →
         secret_arn_shape (stack env) other (req_resource req) →
         statement_applies req s = false).
Proof.
  intros Hp Hk Hr.
  eexists _, _, _. split; [exact (constructor_without_key env id r w p Hp Hk)|].
  unfold role_policy. rewrite Hr. cbn.
  split_and!; try reflexivity.
  intros Hlit other req Hne Hshape.
  exact (lifecycle_statement_misses_other_names (stack env) (secretName p) other req
           Hlit Hne Hshape).
Qed.

(** C6, witness: the scenario of the design document, a secret [db-root] of
    2048 bits without a key. *)
Lemma lifecycle_statement_only_without_key_witness :
  props_heap (with_props 0 plain_props empty_world) !! 0%nat = Some plain_props
  ∧ secretEncryptionKey plain_props = None
  ∧ handlerRole sample_env = Some sample_role
  ∧ ∃ w' this s,
      constructor sample_env "Key" 0 (with_props 0 plain_props empty_world) = (w', Ok this)
      ∧ role_policy sample_env w' = [s]
      ∧ iam.resources s =
          ["arn:aws:secretsmanager:us-east-1:123456789012:secret:db-root-??????"]
      ∧ key_policies w' = ∅
      ∧ policies w' = []
      ∧ statement_applies
          {| req_principal := iam.ArnPrincipal (iam.roleArn sample_role);
             req_action := "secretsmanager:DeleteSecret";
             req_resource :=
               "arn:aws:secretsmanager:us-east-1:123456789012:secret:payroll-a1B2c3";
             req_context := ∅ |} s = false.
Proof.
  assert (H1 : props_heap (with_props 0 plain_props empty_world) !! 0%nat = Some plain_props)
    by reflexivity.
  assert (H2 : secretEncryptionKey plain_props = None) by reflexivity.
  assert (H3 : handlerRole sample_env = Some sample_role) by reflexivity.
  split; [exact H1|]. split; [exact H2|]. split; [exact H3|].
  destruct (lifecycle_statement_only_without_key sample_env "Key" 0%nat
              (with_props 0 plain_props empty_world) plain_props sample_role H1 H2 H3)
    as (w' & this & s & Hrun & Hs & _ & _ & Hres & Hpat & _ & _ & Hkeys & _ & Hpol & Hiso).
  exists w', this, s. split; [exact Hrun|]. split; [exact Hs|].
  split; [rewrite Hres, Hpat; reflexivity|]. split; [exact Hkeys|]. split; [exact Hpol|].
  apply (Hiso eq_refl "payroll"); [discriminate|].
  exists "a1B2c3". split; reflexivity.
Defined.

(** C6, as stated, fails: for the key-less spec whose secret name is ["*"]
    the one statement attached to the role has the resource
    [...:secret:*-??????], and the role's policy allows DeleteSecret on the
    ARN of every secret of the account and region, that of [payroll]
    included. *)
Lemma star_name_reaches_every_secret :
  let run := constructor sample_env "Key" 0 (with_props 0 star_props empty_world) in
  secretEncryptionKey star_props = None
  ∧ run.2 = Ok (constructed sample_env "Key" star_props)
  ∧ iam.resources <$> role_policy sample_env run.1 =
      [["arn:aws:secretsmanager:us-east-1:123456789012:secret:*-??????"]]
  ∧ policy_allows
      {| req_principal := iam.ArnPrincipal (iam.roleArn sample_role);
         req_action := "secretsmanager:DeleteSecret";
         req_resource :=
           "arn:aws:secretsmanager:us-east-1:123456789012:secret:payroll-a1B2c3";
         req_context := ∅ |} (role_policy sample_env run.1) = true
  ∧ ∀ name arn,
      secret_arn_shape sample_stack name arn →
      policy_allows
        {| req_principal := iam.ArnPrincipal (iam.roleArn sample_role);
           req_action := "secretsmanager:DeleteSecret";
           req_resource := arn;
           req_context := ∅ |} (role_policy sample_env run.1) = true.
Proof.
  cbv zeta. split; [reflexivity|]. split; [reflexivity|]. split; [reflexivity|].
  split; [reflexivity|].
  intros name arn Hshape.
  change (role_policy sample_env
            (constructor sample_env "Key" 0 (with_props 0 star_props empty_world)).1)
    with [lifecycle_statement (secret_pattern sample_stack "*")].
  unfold policy_allows. cbn [existsb iam.effect lifecycle_statement].
  assert (Happ : statement_applies
                   {| req_principal := iam.ArnPrincipal (iam.roleArn sample_role);
                      req_action := "secretsmanager:DeleteSecret";
                      req_resource := arn;
                      req_context := ∅ |}
                   (lifecycle_statement (secret_pattern sample_stack "*")) = true).
  { apply lifecycle_statement_applies_iff. split.
    - right. left. reflexivity.
    - exact (star_pattern_complete sample_stack name arn Hshape). }
  fold (lifecycle_statement (secret_pattern sample_stack "*")).
  rewrite Happ. reflexivity.
Qed.
